(** * Basket synchronisation of the food-ordering client

    A shallow embedding of the basket provider
    ([src/context/BusinessContext.tsx], second module: [BasketProvider]) and
    of the HTTP helpers it calls ([src/services/apiService.ts]).

    How the TypeScript is read:

    - an [async] function is a computation in the monad [Async]: it threads
      the [World] (React state, refs, AsyncStorage, the exchanges with the
      remote service, the error console) and either returns or throws;
    - values a handler closes over ([isSyncing], [itemCount],
      [originBusiness], [activeBusiness], [authToken], [cart] ...) are read
      from the render that created the handler, the [view] argument; refs
      ([cartRef.current], [cartTokenRef.current], [mounted.current]) and
      AsyncStorage are read from the live [World];
    - the two effects [cartRef.current = cart] and
      [cartTokenRef.current = cartToken] run when React re-renders, which
      happens while a handler is parked on real I/O ([fetch],
      [response.json()], AsyncStorage): every such primitive ends with
      [commit];
    - the remote service is a function [net] from the exchanges so far and
      the request to the outcome of [fetch]. *)

From Stdlib Require Import ZArith.
From stdpp Require Import gmap strings list pretty.

Local Open Scope string_scope.
Local Open Scope Z_scope.

(** ** Data *)

(** [Business] of [model/interfaces.ts]: the fields the basket code reads. *)
Record Business := {
  id : Z;
  name : string;
  home_url : string
}.

(** [LineItem]. [product_id] is read by [reorderItems] although the declared
    interface lacks it: [None] is JavaScript's [undefined]. *)
Record LineItem := {
  li_id : Z;
  key : string;
  quantity : Z;
  product_id : option Z
}.

(** A shipping package as [syncCart] reads it ([method_id] and [key] are not
    in the declared interface, hence optional). *)
Record ShippingPackage := {
  method_id : option string;
  pkg_key : option string
}.

(** [StoreApiCart]: line items, the server-computed count and total, and
    what [syncCart] reads of the shipping section. *)
Record Cart := {
  items : list LineItem;
  items_count : Z;
  total_price : string;
  shipping_rates : option (list ShippingPackage);
  shipping_method : option string
}.

(** One entry of [batchResponse.responses]. *)
Record SubResponse := { sub_status : Z }.

(** The JavaScript values that flow through the cart code: what
    [response.json()] may yield and what [setCart] may store. *)
Inductive JsVal :=
| VUndefined
| VNull
| VEmptyArray                                   (* the literal [] *)
| VCart (c : Cart)
| VBatch (responses : option (list SubResponse)) (* { responses: [...] } *)
| VObject (message : option string).            (* any other JSON object *)

(** JavaScript truthiness on these values (objects and arrays are truthy). *)
Definition truthy (v : JsVal) : bool :=
  match v with
  | VUndefined | VNull => false
  | _ => true
  end.

(** Truthiness of a [string | null]. *)
Definition truthy_str (s : option string) : bool :=
  match s with
  | Some s => negb (String.eqb s "")
  | None => false
  end.

Inductive ApiType := custom | woocommerce | wordpress | store | auth.

Global Instance ApiType_eq_dec : EqDecision ApiType.
Proof. solve_decision. Defined.

(** One sub-request of a batch payload. *)
Record BatchSubRequest := {
  path : string;
  sub_method : string;
  cache : string;
  sub_id : option Z;
  sub_quantity : Z;
  sub_cart_token : option string
}.

(** Address part of a checkout payload. *)
Record Address := {
  first_name : string;
  last_name : string;
  address_1 : string;
  address_2 : string;
  city : string;
  state : string;
  postcode : string;
  country : string
}.

Record OrderAddress := {
  oa_first_name : string;
  oa_last_name : string;
  oa_company : string;
  oa_address_1 : string;
  oa_address_2 : string;
  oa_city : string;
  oa_state : string;
  oa_postcode : string;
  oa_country : string;
  oa_email : option string;
  oa_phone : string
}.

Record CheckoutPayload := {
  billing_address : Address;
  shipping_address : Address;
  payment_method : string
}.

(** Request bodies (the objects handed to [JSON.stringify]). *)
Inductive Payload :=
| PEmpty                                          (* {} *)
| PAddItem (item_id : string) (qty : Z)           (* { id, quantity } *)
| PQuantity (qty : Z)                             (* { quantity } *)
| PBatch (requests : list BatchSubRequest)        (* { requests } *)
| PShippingRate (package_id : Z) (rate_id : option string)
| POrder (pm : string) (billing shipping : OrderAddress).

Record Request := {
  req_method : string;
  url : string;
  headers : gmap string string;
  body : option Payload
}.

Record Response := {
  status : Z;
  statusText : string;
  cart_token_header : option string;  (* response.headers.get('cart-token') *)
  json : option JsVal                 (* None: the body is not JSON *)
}.

(** [response.ok] *)
Definition ok (r : Response) : bool := (200 <=? status r) && (status r <=? 299).

Inductive FetchOutcome :=
| NetworkFailure
| Responded (r : Response).

Record Exchange := {
  ex_request : Request;
  ex_outcome : FetchOutcome
}.

Inductive JsError :=
| NetworkError
| ApiError (st : Z) (msg : string)  (* Error(`API Error ${status}: ${msg}`) *)
| SyntaxError                       (* response.json() rejected *)
| TypeError                         (* property read on null / undefined *)
| BatchError (failures : nat).      (* `Batch request completed with n failures.` *)

(** ** The world a handler runs in *)

(** React state, as one render sees it. *)
Record ReactState := {
  activeBusiness : option Business;   (* BusinessContext *)
  authToken : option string;          (* AuthContext *)
  user : option string;               (* AuthContext *)
  cartToken : option string;
  originBusiness : option Business;
  conflictModalVisible : bool;
  pendingItem : option (Z * Z);
  cart : JsVal;
  isDelivery : bool;
  isSyncing : bool
}.

Record Refs := {
  cartTokenRef : option string;
  cartRef : JsVal;
  mounted : bool
}.

Record World := {
  rstate : ReactState;
  refs : Refs;
  storage : gmap string string;     (* AsyncStorage *)
  trace : list Exchange;            (* every fetch, oldest first *)
  console : list JsError            (* console.error of caught errors *)
}.

Definition with_rstate (f : ReactState -> ReactState) (w : World) : World :=
  {| rstate := f (rstate w); refs := refs w; storage := storage w;
     trace := trace w; console := console w |}.

Definition with_storage (f : gmap string string -> gmap string string) (w : World) : World :=
  {| rstate := rstate w; refs := refs w; storage := f (storage w);
     trace := trace w; console := console w |}.

(** The effects [cartTokenRef.current = cartToken] and [cartRef.current = cart]. *)
Definition commit (w : World) : World :=
  {| rstate := rstate w;
     refs := {| cartTokenRef := cartToken (rstate w);
                cartRef := cart (rstate w);
                mounted := mounted (refs w) |};
     storage := storage w; trace := trace w; console := console w |}.

(** A world between two handler calls: the effects have run. *)
Definition settled (w : World) : Prop := commit w = w.

Definition set_cart (v : JsVal) (s : ReactState) : ReactState :=
  {| activeBusiness := activeBusiness s; authToken := authToken s; user := user s;
     cartToken := cartToken s; originBusiness := originBusiness s;
     conflictModalVisible := conflictModalVisible s; pendingItem := pendingItem s;
     cart := v; isDelivery := isDelivery s; isSyncing := isSyncing s |}.

Definition set_cartToken (t : option string) (s : ReactState) : ReactState :=
  {| activeBusiness := activeBusiness s; authToken := authToken s; user := user s;
     cartToken := t; originBusiness := originBusiness s;
     conflictModalVisible := conflictModalVisible s; pendingItem := pendingItem s;
     cart := cart s; isDelivery := isDelivery s; isSyncing := isSyncing s |}.

Definition set_originBusiness (b : option Business) (s : ReactState) : ReactState :=
  {| activeBusiness := activeBusiness s; authToken := authToken s; user := user s;
     cartToken := cartToken s; originBusiness := b;
     conflictModalVisible := conflictModalVisible s; pendingItem := pendingItem s;
     cart := cart s; isDelivery := isDelivery s; isSyncing := isSyncing s |}.

Definition set_conflictModalVisible (b : bool) (s : ReactState) : ReactState :=
  {| activeBusiness := activeBusiness s; authToken := authToken s; user := user s;
     cartToken := cartToken s; originBusiness := originBusiness s;
     conflictModalVisible := b; pendingItem := pendingItem s;
     cart := cart s; isDelivery := isDelivery s; isSyncing := isSyncing s |}.

Definition set_pendingItem (p : option (Z * Z)) (s : ReactState) : ReactState :=
  {| activeBusiness := activeBusiness s; authToken := authToken s; user := user s;
     cartToken := cartToken s; originBusiness := originBusiness s;
     conflictModalVisible := conflictModalVisible s; pendingItem := p;
     cart := cart s; isDelivery := isDelivery s; isSyncing := isSyncing s |}.

Definition set_isSyncing (b : bool) (s : ReactState) : ReactState :=
  {| activeBusiness := activeBusiness s; authToken := authToken s; user := user s;
     cartToken := cartToken s; originBusiness := originBusiness s;
     conflictModalVisible := conflictModalVisible s; pendingItem := pendingItem s;
     cart := cart s; isDelivery := isDelivery s; isSyncing := b |}.

(** ** The monad of asynchronous handlers *)

Inductive Outcome (A : Type) :=
| Returned (a : A)
| Thrown (e : JsError).
Arguments Returned {A} a.
Arguments Thrown {A} e.

Definition Async (A : Type) : Type := World -> Outcome A * World.

Definition ret {A} (a : A) : Async A := fun w => (Returned a, w).

Definition throw {A} (e : JsError) : Async A := fun w => (Thrown e, w).

Definition bind {A B} (m : Async A) (k : A -> Async B) : Async B :=
  fun w =>
    match m w with
    | (Returned a, w') => k a w'
    | (Thrown e, w') => (Thrown e, w')
    end.

(** [try { m } catch (e) { h e }] *)
Definition try_catch {A} (m : Async A) (h : JsError -> Async A) : Async A :=
  fun w =>
    match m w with
    | (Returned a, w') => (Returned a, w')
    | (Thrown e, w') => h e w'
    end.

(** [try { m } finally { f }]: [f] runs either way and the outcome of [m] is
    kept unless [f] itself throws. *)
Definition try_finally {A} (m : Async A) (f : Async unit) : Async A :=
  fun w =>
    let '(r, w') := m w in
    match f w' with
    | (Returned _, w'') => (r, w'')
    | (Thrown e, w'') => (Thrown e, w'')
    end.

Declare Scope async_scope.
Delimit Scope async_scope with async.
Notation "'let*' x ':=' m 'in' k" := (bind m (fun x => k))
  (at level 10, x name, m at level 100, k at level 200, only parsing)
  : async_scope.
Notation "m '>>;' k" := (bind m (fun _ => k))
  (at level 100, k at level 200, right associativity, only parsing)
  : async_scope.
Local Open Scope async_scope.

Definition modify (f : ReactState -> ReactState) : Async unit :=
  fun w => (Returned tt, with_rstate f w).

Definition setCart (v : JsVal) : Async unit := modify (set_cart v).
Definition _setCartToken (t : option string) : Async unit := modify (set_cartToken t).
Definition setOriginBusiness (b : option Business) : Async unit := modify (set_originBusiness b).
Definition setConflictModalVisible (b : bool) : Async unit := modify (set_conflictModalVisible b).
Definition setPendingItem (p : option (Z * Z)) : Async unit := modify (set_pendingItem p).
Definition setIsSyncing (b : bool) : Async unit := modify (set_isSyncing b).

Definition console_error (e : JsError) : Async unit :=
  fun w => (Returned tt,
            {| rstate := rstate w; refs := refs w; storage := storage w;
               trace := trace w; console := console w ++ [e] |}).

Definition read_refs : Async Refs := fun w => (Returned (refs w), w).

(** AsyncStorage. The handler is parked while the store works. *)
Definition AsyncStorage_setItem (k v : string) : Async unit :=
  fun w => (Returned tt, commit (with_storage (insert k v) w)).

Definition AsyncStorage_removeItem (k : string) : Async unit :=
  fun w => (Returned tt, commit (with_storage (delete k) w)).

(** [await response.json()] *)
Definition response_json (r : Response) : Async JsVal :=
  fun w =>
    match json r with
    | Some v => (Returned v, commit w)
    | None => (Thrown SyntaxError, commit w)
    end.

Definition CART_TOKEN_STORAGE : string := "@Cart:token".
Definition ORIGIN_STORAGE : string := "@Cart:originBusiness".

(** ** [getCartUpdateEndpoint] *)

Record StoreApiUpdatePayload := {
  endpoint : string;
  payload : Payload;
  method : string
}.

(** [currentCart.items.find((i) => i.id === itemId)] *)
Definition find_item (itemId : Z) (l : list LineItem) : option LineItem :=
  List.find (fun i => li_id i =? itemId) l.

(** [itemId.toString()] *)
Definition toString (n : Z) : string := pretty n.

(** [None] stands for the [TypeError] of [currentCart.items.find] on a truthy
    value that has no [items]. *)
Definition getCartUpdateEndpoint (itemId newQuantity : Z) (currentCart : JsVal)
  : option StoreApiUpdatePayload :=
  match currentCart with
  | VUndefined | VNull =>
      Some {| endpoint := "/cart/items";
              payload := PAddItem (toString itemId) newQuantity;
              method := "POST" |}
  | VCart c =>
      match find_item itemId (items c) with
      | Some existingItem =>
          if newQuantity <=? 0 then
            Some {| endpoint := "/cart/items/" ++ key existingItem;
                    payload := PEmpty;
                    method := "DELETE" |}
          else
            Some {| endpoint := "/cart/items/" ++ key existingItem;
                    payload := PQuantity newQuantity;
                    method := "PUT" |}
      | None =>
          if newQuantity >? 0 then
            Some {| endpoint := "/cart/add-item";
                    payload := PAddItem (toString itemId) newQuantity;
                    method := "POST" |}
          else
            Some {| endpoint := ""; payload := PEmpty; method := "POST" |}
      end
  | VEmptyArray | VBatch _ | VObject _ => None
  end.

(** ** [useApiService]: the HTTP helpers *)

Definition PLATFORM_BASE_URL : string :=
  "https://foodapp1.wpenginepowered.com/wp-json/".

Definition startsWith (s p : string) : bool := String.prefix p s.

Definition endsWith (s p : string) : bool :=
  String.prefix (String.rev p) (String.rev s).

(** [`${endpoint.startsWith('/') ? '' : '/'}${endpoint}`] *)
Definition slashed (endpoint : string) : string :=
  (if startsWith endpoint "/" then "" else "/") ++ endpoint.

Definition baseUrl (view : ReactState) (endpoint : string) (apiType : ApiType) : string :=
  if String.eqb endpoint "/businesses" || bool_decide (apiType = auth) then
    PLATFORM_BASE_URL
  else
    match activeBusiness view with
    | Some b =>
        if negb (String.eqb (home_url b) "") then
          if endsWith (home_url b) "/" then home_url b ++ "wp-json/"
          else home_url b ++ "/wp-json/"
        else PLATFORM_BASE_URL
    | None => PLATFORM_BASE_URL
    end.

(** [overrideToken !== undefined ? overrideToken : authToken]; the outer
    [None] is [undefined]. *)
Definition customerAuthToken (view : ReactState) (overrideToken : option (option string))
  : option string :=
  match overrideToken with
  | Some t => t
  | None => authToken view
  end.

(** [`Bearer ${customerAuthToken}`] *)
Definition bearer (t : option string) : string :=
  "Bearer " ++ match t with Some s => s | None => "null" end.

Definition fullEndpoint (endpoint : string) (apiType : ApiType) : string :=
  match apiType with
  | woocommerce => "wc/v3" ++ slashed endpoint
  | store => "wc/store/v1" ++ slashed endpoint
  | custom => "foodapp/v1" ++ slashed endpoint
  | auth | wordpress => slashed endpoint
  end.

Definition config_headers (view : ReactState) (currentCartToken : option string)
    (apiType : ApiType) (hdrs : gmap string string)
    (overrideToken : option (option string)) : gmap string string :=
  let h0 : gmap string string := hdrs ∪ {[ "Content-Type" := "application/json" ]} in
  let tok := customerAuthToken view overrideToken in
  match apiType with
  | woocommerce | custom =>
      if truthy_str tok then <[ "Authorization" := bearer tok ]> h0 else h0
  | store =>
      let h1 :=
        match currentCartToken with
        | Some t => if truthy_str currentCartToken then <[ "Cart-Token" := t ]> h0 else h0
        | None => h0
        end in
      <[ "Authorization" := bearer tok ]> h1
  | auth | wordpress => h0
  end.

(** The [url] and [config] that [request] hands to [fetch]. *)
Definition build_request (view : ReactState) (currentCartToken : option string)
    (endpoint : string) (apiType : ApiType) (method : string)
    (body : option Payload) (hdrs : gmap string string)
    (overrideToken : option (option string)) : Request :=
  {| req_method := method;
     url := baseUrl view endpoint apiType ++ fullEndpoint endpoint apiType;
     headers := config_headers view currentCartToken apiType hdrs overrideToken;
     body := body |}.

(** [saveCartToken] of the basket provider (the [cartTokenManager] handed to
    [useApiService]). *)
Definition saveCartToken (token : option string) : Async unit :=
  try_catch
    ((if truthy_str token then
        match token with
        | Some t => AsyncStorage_setItem CART_TOKEN_STORAGE t
        | None => ret tt
        end
      else AsyncStorage_removeItem CART_TOKEN_STORAGE) >>;
     _setCartToken token)
    (fun e => console_error e).

Section Basket.

(** The remote service and the network in front of it. *)
Variable net : list Exchange -> Request -> FetchOutcome.

(** [JSON.stringify], of the platform. *)
Variable JSON_stringify : JsVal -> string.
Variable JSON_stringify_business : Business -> string.

(** [CONFIG.SHIPPING_PACKAGE_ID] of [constants/config]. *)
Variable SHIPPING_PACKAGE_ID : Z.

(** [await fetch(url, config)] *)
Definition fetch (req : Request) : Async Response :=
  fun w =>
    let out := net (trace w) req in
    let w' := commit {| rstate := rstate w; refs := refs w; storage := storage w;
                        trace := trace w ++ [ {| ex_request := req; ex_outcome := out |} ];
                        console := console w |} in
    match out with
    | NetworkFailure => (Thrown NetworkError, w')
    | Responded r => (Returned r, w')
    end.

(** [data.message || JSON.stringify(data)] *)
Definition error_text (data : JsVal) : Async string :=
  match data with
  | VUndefined | VNull => throw TypeError
  | VObject (Some m) => if negb (String.eqb m "") then ret m else ret (JSON_stringify data)
  | _ => ret (JSON_stringify data)
  end.

Definition request (view : ReactState) (endpoint : string) (apiType : ApiType)
    (method : string) (body : option Payload) (hdrs : gmap string string)
    (overrideToken : option (option string)) : Async JsVal :=
  let* r := read_refs in
  let currentCartToken := cartTokenRef r in
  let req := build_request view currentCartToken endpoint apiType method body hdrs
               overrideToken in
  try_catch
    (let* response := fetch req in
     let newCartToken := cart_token_header response in
     (if truthy_str newCartToken && negb (bool_decide (newCartToken = currentCartToken))
      then saveCartToken newCartToken
      else ret tt) >>;
     if negb (ok response) then
       let* errorMsg :=
         try_catch
           (let* data := response_json response in error_text data)
           (fun _ => ret (statusText response)) in
       throw (ApiError (status response) errorMsg)
     else if String.eqb method "DELETE" then ret VEmptyArray
     else response_json response)
    (fun error => console_error error >>; throw error).

Definition getWooCommerceCart (view : ReactState) : Async JsVal :=
  try_catch
    (request view "/cart" store "GET" None ∅ None)
    (fun error => console_error error >>; throw error).

Definition sendWooCommerceCartUpdate (view : ReactState) (endpoint method : string)
    (data : option Payload) : Async JsVal :=
  try_catch
    (if String.eqb method "DELETE" then request view endpoint store method data ∅ None
     else request view endpoint store method data ∅ None)
    (fun error => console_error error >>; throw error).

(** Without a cart token the function falls off its end: [undefined]. *)
Definition clearCart (view : ReactState) : Async JsVal :=
  try_catch
    (let* r := read_refs in
     if truthy_str (cartTokenRef r) then
       request view "/cart/items" store "DELETE" (Some PEmpty) ∅ None
     else ret VUndefined)
    (fun error => console_error error >>; throw error).

Definition updateShippingMethod (view : ReactState) (package_id : Z)
    (rate_id : option string) : Async JsVal :=
  try_catch
    (request view "/cart/select-shipping-rate" store "POST"
       (Some (PShippingRate package_id rate_id)) ∅ None)
    (fun error => console_error error >>; throw error).

Definition sendWooCommerceCartBatch (view : ReactState) (payload : Payload)
  : Async JsVal :=
  try_catch
    (request view "/batch" store "POST" (Some payload) ∅ None)
    (fun error => console_error error >>; throw error).

Definition order_address (view : ReactState) (a : Address) : OrderAddress :=
  {| oa_first_name := first_name a;
     oa_last_name := last_name a;
     oa_company := "";
     oa_address_1 := address_1 a;
     oa_address_2 := address_2 a;
     oa_city := city a;
     oa_state := state a;
     oa_postcode := postcode a;
     oa_country := if String.eqb (country a) "UK" then "GB" else country a;
     oa_email := user view;
     oa_phone := "" |}.

Definition createOrder (view : ReactState) (payload : CheckoutPayload) : Async JsVal :=
  try_catch
    (let orderPayload :=
       POrder (payment_method payload)
              (order_address view (billing_address payload))
              (order_address view (shipping_address payload)) in
     let* newOrder := request view "checkout" store "POST" (Some orderPayload) ∅ None in
     saveCartToken None >>;
     ret newOrder)
    (fun error => console_error error >>; throw error).

Definition deleteCustomerAddress (view : ReactState) (userId addressId : Z) : Async unit :=
  try_catch
    (request view ("/customer/" ++ toString userId ++ "/addresses/" ++ toString addressId)
       custom "DELETE" None ∅ None >>;
     ret tt)
    (fun error => console_error error >>; throw error).

(** ** [BasketProvider]: derived values and handlers *)

(** [cart?.items_count ?? 0] *)
Definition itemCount (view : ReactState) : Z :=
  match cart view with
  | VCart c => items_count c
  | _ => 0
  end.

(** [originBusiness && originBusiness.id !== activeBusiness?.id] *)
Definition origin_differs (view : ReactState) : bool :=
  match originBusiness view with
  | Some o =>
      match activeBusiness view with
      | Some a => negb (id o =? id a)
      | None => true
      end
  | None => false
  end.

(** [if (activeBusiness) { setOriginBusiness(activeBusiness); await
    AsyncStorage.setItem('@Cart:originBusiness', JSON.stringify(activeBusiness)) }] *)
Definition record_origin (view : ReactState) : Async unit :=
  match activeBusiness view with
  | Some b =>
      setOriginBusiness (Some b) >>;
      AsyncStorage_setItem ORIGIN_STORAGE (JSON_stringify_business b)
  | None => ret tt
  end.

Definition performBasketUpdate (view : ReactState) (itemId newQuantity : Z) : Async unit :=
  setIsSyncing true >>;
  let* r := read_refs in
  let currentCart := cartRef r in
  match getCartUpdateEndpoint itemId newQuantity currentCart with
  | None => throw TypeError
  | Some p =>
      if String.eqb (endpoint p) "" then setIsSyncing false
      else
        try_finally
          (try_catch
             (let* updateCartResponse :=
                sendWooCommerceCartUpdate view (endpoint p) (method p) (Some (payload p)) in
              if truthy updateCartResponse || String.eqb (method p) "DELETE" then
                let* updatedCart := getWooCommerceCart view in
                setCart updatedCart >>;
                match updatedCart with
                | VUndefined | VNull => throw TypeError
                | VCart c =>
                    if items_count c =? 0 then
                      setOriginBusiness None >>;
                      AsyncStorage_removeItem ORIGIN_STORAGE
                    else ret tt
                | _ => ret tt
                end
              else ret tt)
             (fun error => console_error error))
          (setIsSyncing false)
  end.

Definition updateBasket (view : ReactState) (itemId newQuantity : Z) : Async unit :=
  if isSyncing view then ret tt
  else if (newQuantity >? 0) && (itemCount view >? 0) && origin_differs view then
    setPendingItem (Some (itemId, newQuantity)) >>;
    setConflictModalVisible true
  else
    (if (newQuantity >? 0) && (itemCount view =? 0) then record_origin view
     else ret tt) >>;
    performBasketUpdate view itemId newQuantity.

(** [onConfirm] of the conflict modal. *)
Definition handleClearAndAdd (view : ReactState) : Async unit :=
  match pendingItem view with
  | None => ret tt
  | Some (item_id, item_qty) =>
      setPendingItem None >>;
      setConflictModalVisible false >>;
      setIsSyncing true >>;
      try_finally
        (try_catch
           (clearCart view >>;
            setCart VNull >>;
            record_origin view >>;
            performBasketUpdate view item_id item_qty)
           (fun error => console_error error))
        (setIsSyncing false)
  end.


(** [batchResponse.responses?.filter((res) => res.status >= 400) || []] *)
Definition failedRequests (batchResponse : JsVal) : Async (list SubResponse) :=
  match batchResponse with
  | VUndefined | VNull => throw TypeError
  | VBatch (Some rs) => ret (List.filter (fun res => sub_status res >=? 400) rs)
  | _ => ret []
  end.

Definition batchRequests (currentCartToken : option string) (items : list LineItem)
  : list BatchSubRequest :=
  List.map (fun item =>
              {| path := "/wc/store/v1/cart/add-item";
                 sub_method := "POST";
                 cache := "no-store";
                 sub_id := product_id item;
                 sub_quantity := quantity item;
                 sub_cart_token := currentCartToken |})
           items.

Definition reorderItems (view : ReactState) (items : list LineItem) : Async unit :=
  if isSyncing view then ret tt
  else
    setIsSyncing true >>;
    try_finally
      (try_catch
         (clearCart view >>;
          let* r := read_refs in
          let currentCartToken := cartTokenRef r in
          if (length items =? 0)%nat then
            let* emptyCart := getWooCommerceCart view in
            setCart emptyCart
          else
            let batchPayload := PBatch (batchRequests currentCartToken items) in
            let* batchResponse := sendWooCommerceCartBatch view batchPayload in
            let* failed := failedRequests batchResponse in
            if (0 <? length failed)%nat then throw (BatchError (length failed))
            else
              let* updatedCart := getWooCommerceCart view in
              setCart updatedCart)
         (fun error =>
            console_error error >>;
            let* resyncCart := getWooCommerceCart view in
            setCart resyncCart))
      (setIsSyncing false).

(** [syncCart]; [existingToken] and [source] are only logged. *)
Definition syncCart (view : ReactState) (endpoint method : string)
    (payload : option Payload) : Async JsVal :=
  if isSyncing view then ret (cart view)
  else
    setIsSyncing true >>;
    try_finally
      (try_catch
         (let* response := sendWooCommerceCartUpdate view endpoint method payload in
          let* r := read_refs in
          (if mounted r then
             let finalCart := if truthy response then response else VNull in
             setCart finalCart >>;
             match finalCart with
             | VCart c =>
                 match shipping_rates c with
                 | Some rates =>
                     let methodKey := if isDelivery view then "flat_rate" else "local_pickup" in
                     match List.find (fun rate =>
                                        bool_decide (method_id rate = Some methodKey)) rates with
                     | Some defaultMethod =>
                         if negb (bool_decide (shipping_method c = pkg_key defaultMethod)) then
                           updateShippingMethod view SHIPPING_PACKAGE_ID (shipping_method c) >>;
                           ret tt
                         else ret tt
                     | None => ret tt
                     end
                 | None => ret tt
                 end
             | _ => ret tt
             end
           else ret tt) >>;
          ret response)
         (fun error => console_error error >>; ret (cart view)))
      (let* r := read_refs in
       if mounted r then setIsSyncing false else ret tt).

(** Running a handler from the current render. *)
Definition call {A} (handler : ReactState -> Async A) (w : World) : Outcome A * World :=
  handler (rstate w) w.

End Basket.

Arguments call {A} handler w /.
Arguments with_rstate f w /.
Arguments with_storage f w /.

(** ** Vocabulary of the statements *)

(** The error message [request] puts in its [Error]. *)
Definition error_message (JSON_stringify : JsVal -> string) (r : Response) : string :=
  match json r with
  | None | Some VUndefined | Some VNull => statusText r
  | Some (VObject (Some m)) =>
      if negb (String.eqb m "") then m else JSON_stringify (VObject (Some m))
  | Some v => JSON_stringify v
  end.

(** The outcome of [request], read off the outcome of its [fetch]. *)
Definition response_result (JSON_stringify : JsVal -> string) (method : string)
    (out : FetchOutcome) : Outcome JsVal :=
  match out with
  | NetworkFailure => Thrown NetworkError
  | Responded r =>
      if negb (ok r) then Thrown (ApiError (status r) (error_message JSON_stringify r))
      else if String.eqb method "DELETE" then Returned VEmptyArray
      else match json r with
           | Some v => Returned v
           | None => Thrown SyntaxError
           end
  end.

(** [request] saves the token of this response. *)
Definition rotates (currentCartToken : option string) (out : FetchOutcome) : bool :=
  match out with
  | NetworkFailure => false
  | Responded r =>
      truthy_str (cart_token_header r)
      && negb (bool_decide (cart_token_header r = currentCartToken))
  end.

Definition new_token (out : FetchOutcome) : option string :=
  match out with
  | NetworkFailure => None
  | Responded r => cart_token_header r
  end.

(** What the HTTP helpers leave alone: the React state but for [cartToken],
    the [mounted] flag, AsyncStorage but for the token entry. *)
Record api_frame (w w' : World) : Prop := {
  fr_state : set_cartToken None (rstate w') = set_cartToken None (rstate w);
  fr_mounted : mounted (refs w') = mounted (refs w);
  fr_storage : delete CART_TOKEN_STORAGE (storage w') = delete CART_TOKEN_STORAGE (storage w)
}.

(** The postcondition of one HTTP call made from world [w]: one exchange is
    appended, the result is read off it, and only the token may move. *)
Definition api_call (net : list Exchange -> Request -> FetchOutcome)
    (JSON_stringify : JsVal -> string) (view : ReactState)
    (endpoint : string) (apiType : ApiType) (method : string) (body : option Payload)
    (hdrs : gmap string string) (ov : option (option string))
    (w : World) (res : Outcome JsVal) (w' : World) : Prop :=
  let tok := cartTokenRef (refs w) in
  let req := build_request view tok endpoint apiType method body hdrs ov in
  let out := net (trace w) req in
  trace w' = (trace w ++ [ {| ex_request := req; ex_outcome := out |} ])%list
  /\ res = response_result JSON_stringify method out
  /\ api_frame w w'
  /\ cartToken (rstate w') =
       (if rotates tok out then new_token out else cartToken (rstate w))
  /\ storage w' !! CART_TOKEN_STORAGE =
       (if rotates tok out then new_token out else storage w !! CART_TOKEN_STORAGE)
  /\ cartRef (refs w') = cart (rstate w).

Definition exchange (net : list Exchange -> Request -> FetchOutcome)
    (h : list Exchange) (req : Request) : Exchange :=
  {| ex_request := req; ex_outcome := net h req |}.

(** [GET /cart] carrying the token [tok]. *)
Definition get_cart_request (view : ReactState) (tok : option string) : Request :=
  build_request view tok "/cart" store "GET" None ∅ None.

(** [DELETE /cart/items] carrying the token [tok]. *)
Definition clear_request (view : ReactState) (tok : option string) : Request :=
  build_request view tok "/cart/items" store "DELETE" (Some PEmpty) ∅ None.

(** [POST /batch] with one add-item sub-request per line item. *)
Definition batch_request (view : ReactState) (tok : option string)
    (items : list LineItem) : Request :=
  build_request view tok "/batch" store "POST"
    (Some (PBatch (batchRequests tok items))) ∅ None.

(** The effect of [performBasketUpdate]'s check on the re-fetched cart. *)
Definition origin_after_refetch (updatedCart : JsVal) (before : option Business)
  : option Business :=
  match updatedCart with
  | VCart c => if items_count c =? 0 then None else before
  | _ => before
  end.

(** The response is not an error. *)
Definition non_error (ex : Exchange) : Prop :=
  exists r, ex_outcome ex = Responded r /\ ok r = true.

(** The response passes [performBasketUpdate]'s test
    [updateCartResponse || method === 'DELETE']. *)
Definition accepted (ex : Exchange) : Prop :=
  exists r, ex_outcome ex = Responded r /\ ok r = true
    /\ (req_method (ex_request ex) = "DELETE"
        \/ exists v, json r = Some v /\ truthy v = true).

(** The exchange fetched the JSON value [c]. *)
Definition fetched (ex : Exchange) (c : JsVal) : Prop :=
  exists r, ex_outcome ex = Responded r /\ ok r = true /\ json r = Some c.

Definition is_get_cart (view : ReactState) (ex : Exchange) : Prop :=
  exists tok, ex_request ex = get_cart_request view tok.

(** From [w0] to [w1], a mutation that satisfies [good] is followed by
    exactly one [GET /cart], and what that fetch yields is the local cart. *)
Definition refetched_when (good : Exchange -> Prop) (w0 w1 : World) : Prop :=
  forall ex rest,
    trace w1 = (trace w0 ++ ex :: rest)%list ->
    good ex ->
    exists ex2, rest = [ex2] /\ is_get_cart (rstate w0) ex2
                /\ forall c, fetched ex2 c -> cart (rstate w1) = c.

(** Some sub-response reports a failure. *)
Definition partial_failure (ex : Exchange) : Prop :=
  exists r rs, ex_outcome ex = Responded r /\ ok r = true
    /\ json r = Some (VBatch (Some rs))
    /\ Exists (fun sr => 400 <= sub_status sr) rs.


(** Each sub-request of the batch adds one line item. *)
Definition adds_line (item : LineItem) (sr : BatchSubRequest) : Prop :=
  path sr = "/wc/store/v1/cart/add-item" /\ sub_method sr = "POST"
  /\ sub_id sr = product_id item /\ sub_quantity sr = quantity item.

(** ** Runs, and the claims of the specification as it words them *)

Section Statements.

Variable net : list Exchange -> Request -> FetchOutcome.
Variable JSON_stringify : JsVal -> string.
Variable JSON_stringify_business : Business -> string.

(** The world in which [updateBasket] hands over to [performBasketUpdate]. *)
Definition before_update (view : ReactState) (newQuantity : Z) (w : World) : World :=
  if (newQuantity >? 0) && (itemCount view =? 0)
  then snd (record_origin JSON_stringify_business view w)
  else w.

(** [updateBasket] called from the render of [w], once React has settled. *)
Definition step (op : Z * Z) (w : World) : World :=
  snd (call (fun v => updateBasket net JSON_stringify JSON_stringify_business v op.1 op.2)
         (commit w)).

(** The worlds before and after each operation of a sequence. *)
Fixpoint run_ops (ops : list (Z * Z)) (w : World) : list (World * World) :=
  match ops with
  | [] => []
  | op :: ops' => (commit w, step op w) :: run_ops ops' (step op w)
  end.

(** The claim as the specification words it: any non-error response to the
    mutation is followed by the re-fetch. *)
Definition refetched_on_any_non_error (ops : list (Z * Z)) (w : World) : Prop :=
  forall w0 w1, (w0, w1) ∈ run_ops ops w -> refetched_when non_error w0 w1.



(** The claim as the specification words it: for every list, one clear
    request, then one batch request, then only re-fetches. *)
Definition one_clear_then_one_batch (view : ReactState) (items : list LineItem)
    (w : World) : Prop :=
  exists c b gets,
    trace (snd (reorderItems net JSON_stringify view items w))
    = (trace w ++ c :: b :: gets)%list
    /\ (exists tok, ex_request c = clear_request view tok)
    /\ (exists tok, ex_request b = batch_request view tok items)
    /\ Forall (is_get_cart view) gets.

(** The claim as the specification words it: a failed mutation is thrown to
    the caller of [setItemQuantity]. *)
Definition failure_is_thrown (view : ReactState) (itemId quantity : Z) (w : World) : Prop :=
  forall ex rest,
    trace (snd (updateBasket net JSON_stringify JSON_stringify_business view itemId quantity w))
    = (trace w ++ ex :: rest)%list ->
    ~ non_error ex ->
    exists e,
      fst (updateBasket net JSON_stringify JSON_stringify_business view itemId quantity w)
      = Thrown e.


End Statements.

(** ** A reference service and sample worlds: a small in-memory Store API
    used to run the handlers on concrete inputs; the cart it serves is the
    replay of the accepted requests so far. *)
Module Sample.

Definition catalogue : list Z := [7; 42; 99].

Definition cart_of (its : list LineItem) : Cart :=
  {| items := its;
     items_count := fold_right (fun i n => quantity i + n) 0 its;
     total_price := toString (fold_right (fun i n => 100 * quantity i + n) 0 its);
     shipping_rates := Some [];
     shipping_method := None |}.

Definition add_line (pid qty : Z) (its : list LineItem) : list LineItem :=
  match find_item pid its with
  | Some _ =>
      List.map (fun i => if li_id i =? pid
                         then {| li_id := pid; key := key i;
                                 quantity := quantity i + qty; product_id := Some pid |}
                         else i) its
  | None =>
      (its ++ [ {| li_id := pid; key := "k" ++ toString pid;
                   quantity := qty; product_id := Some pid |} ])%list
  end.

Definition respond (st : Z) (v : JsVal) : Response :=
  {| status := st; statusText := "";
     cart_token_header := Some "tok-1"; json := Some v |}.

Definition add_by_name (s : string) (qty : Z) (its : list LineItem)
  : option (list LineItem) :=
  match List.find (fun z => String.eqb (toString z) s) catalogue with
  | Some pid => Some (add_line pid qty its)
  | None => None
  end.

Definition sub_apply (its : list LineItem) (sr : BatchSubRequest)
  : list LineItem * SubResponse :=
  match sub_id sr with
  | Some pid =>
      if bool_decide (pid ∈ catalogue) then (add_line pid (sub_quantity sr) its, {| sub_status := 201 |})
      else (its, {| sub_status := 400 |})
  | None => (its, {| sub_status := 400 |})
  end.

Fixpoint batch_apply (its : list LineItem) (srs : list BatchSubRequest)
  : list LineItem * list SubResponse :=
  match srs with
  | [] => (its, [])
  | sr :: srs' =>
      let '(its1, r) := sub_apply its sr in
      let '(its2, rs) := batch_apply its1 srs' in
      (its2, r :: rs)
  end.

(** One request against the cart lines [its]. *)
Definition serve (its : list LineItem) (req : Request) : list LineItem * Response :=
  let u := url req in
  let m := req_method req in
  if String.eqb m "GET" then (its, respond 200 (VCart (cart_of its)))
  else if String.eqb m "DELETE" then
    if endsWith u "/cart/items" then ([], respond 200 (VCart (cart_of [])))
    else
      let its' := List.filter (fun i => negb (endsWith u ("/cart/items/" ++ key i))) its in
      (its', respond 200 (VCart (cart_of its')))
  else
    match body req with
    | Some (PAddItem s qty) =>
        match add_by_name s qty its with
        | Some its' => (its', respond 201 (VCart (cart_of its')))
        | None => (its, respond 400 (VObject (Some "unknown product")))
        end
    | Some (PQuantity qty) =>
        let its' :=
          List.map (fun i => if endsWith u ("/cart/items/" ++ key i)
                             then {| li_id := li_id i; key := key i;
                                     quantity := qty; product_id := product_id i |}
                             else i) its in
        (its', respond 200 (VCart (cart_of its')))
    | Some (PBatch srs) =>
        let '(its', rs) := batch_apply its srs in
        (its', respond 207 (VBatch (Some rs)))
    | _ => (its, respond 200 (VObject None))
    end.

Definition replay (h : list Exchange) : list LineItem :=
  fold_left (fun its ex => fst (serve its (ex_request ex))) h [].

Definition net : list Exchange -> Request -> FetchOutcome :=
  fun h req => Responded (snd (serve (replay h) req)).

(** A service that is down. *)
Definition offline : list Exchange -> Request -> FetchOutcome :=
  fun _ _ => NetworkFailure.

(** A service that answers every mutation [200] with the JSON body [null]. *)
Definition null_body : list Exchange -> Request -> FetchOutcome :=
  fun h req =>
    if String.eqb (req_method req) "GET" then net h req
    else Responded {| status := 200; statusText := "OK";
                      cart_token_header := None; json := Some VNull |}.

Definition stringify (v : JsVal) : string := "{}".

Definition stringify_business (b : Business) : string :=
  "{id:" ++ toString (id b) ++ "}".

Definition pizzeria : Business :=
  {| id := 1; name := "Pizzeria"; home_url := "https://pizzeria.example" |}.

Definition noodle_bar : Business :=
  {| id := 2; name := "Noodle bar"; home_url := "https://noodles.example/" |}.

(** The state of a render with cart [c], origin [o], active business [a]
    and token [t]. *)
Definition state_of (c : JsVal) (o a : option Business) (t : option string)
  : ReactState :=
  {| activeBusiness := a; authToken := None; user := None;
     cartToken := t; originBusiness := o;
     conflictModalVisible := false; pendingItem := None;
     cart := c; isDelivery := true; isSyncing := false |}.

Definition world_of (s : ReactState) (h : list Exchange) : World :=
  commit {| rstate := s;
            refs := {| cartTokenRef := None; cartRef := VNull; mounted := true |};
            storage := match cartToken s with
                       | Some t => {[ CART_TOKEN_STORAGE := t ]}
                       | None => ∅
                       end;
            trace := h; console := [] |}.

Definition empty_cart : JsVal := VCart (cart_of []).

(** An empty cart held for the pizzeria, no origin recorded. *)
Definition fresh : World :=
  world_of (state_of empty_cart None (Some pizzeria) (Some "tok-1")) [].

(** The same without a cart token. *)
Definition tokenless : World :=
  world_of (state_of empty_cart None (Some pizzeria) None) [].

Definition line42 : LineItem :=
  {| li_id := 42; key := "k42"; quantity := 1; product_id := Some 42 |}.

(** The world after product 42 was added once to [fresh]. *)
Definition stocked : World :=
  commit (snd (call (fun v => updateBasket net stringify stringify_business v 42 1) fresh)).

(** A basket of the noodle bar while the pizzeria is the active business. *)
Definition conflicted : World :=
  with_rstate (set_originBusiness (Some noodle_bar)) stocked.

(** The same once an add of product 7 has been held back by the conflict. *)
Definition pending : World :=
  with_rstate (fun s => set_conflictModalVisible true (set_pendingItem (Some (7, 1)) s))
    conflicted.

(** The same while another mutation holds the busy flag. *)
Definition busy : World :=
  with_rstate (set_isSyncing true) pending.



Definition order_line (pid qty : Z) : LineItem :=
  {| li_id := pid; key := ""; quantity := qty; product_id := Some pid |}.

End Sample.

(** ** The rest of the providers, of the service and of their callers *)

(** [AsyncStorage.getItem] *)
Definition AsyncStorage_getItem (k : string) : Async (option string) :=
  fun w => (Returned (storage w !! k), commit w).

(** [loadCartToken] of the basket provider. *)
Definition loadCartToken : Async (option string) :=
  try_catch
    (let* token := AsyncStorage_getItem CART_TOKEN_STORAGE in
     _setCartToken token >>;
     ret token)
    (fun e => console_error e >>; ret None).

(** [getItemQuantity]: [item?.quantity ?? 0], and [0] when the cart has no
    [items]. *)
Definition getItemQuantity (view : ReactState) (itemId : Z) : Z :=
  match cart view with
  | VCart c =>
      match find_item itemId (items c) with
      | Some item => quantity item
      | None => 0
      end
  | _ => 0
  end.

(** [BusinessProvider] (first module of [BusinessContext.tsx]). *)
Definition ACTIVE_BUSINESS_STORAGE : string := "active_business".

Definition set_activeBusiness (b : option Business) (s : ReactState) : ReactState :=
  {| activeBusiness := b; authToken := authToken s; user := user s;
     cartToken := cartToken s; originBusiness := originBusiness s;
     conflictModalVisible := conflictModalVisible s; pendingItem := pendingItem s;
     cart := cart s; isDelivery := isDelivery s; isSyncing := isSyncing s |}.

Definition setActiveBusiness (b : option Business) : Async unit :=
  modify (set_activeBusiness b).

(** [QuantitySelector]: the two press handlers. *)
Definition handleDecrement (quantity : Z) (onUpdateQuantity : Z -> Async unit)
  : Async unit :=
  if quantity >? 0 then onUpdateQuantity (quantity - 1) else ret tt.

Definition handleIncrement (quantity : Z) (onUpdateQuantity : Z -> Async unit)
  : Async unit :=
  onUpdateQuantity (quantity + 1).

Section Providers.

Variable net : list Exchange -> Request -> FetchOutcome.
Variable JSON_stringify : JsVal -> string.
Variable JSON_stringify_business : Business -> string.

(** [JSON.parse] of a saved business, read at the type of the state it is
    stored in, [Business | null]; the outer [None] is the [SyntaxError] of a
    string that is not JSON. *)
Variable JSON_parse_business : string -> option (option Business).

Definition loadPersistedBusiness : Async unit :=
  let* saved := AsyncStorage_getItem ACTIVE_BUSINESS_STORAGE in
  if truthy_str saved then
    match saved with
    | Some s =>
        match JSON_parse_business s with
        | Some b => setActiveBusiness b
        | None => throw SyntaxError
        end
    | None => ret tt
    end
  else ret tt.

Definition setBusiness (business : Business) : Async unit :=
  setActiveBusiness (Some business) >>;
  AsyncStorage_setItem ACTIVE_BUSINESS_STORAGE (JSON_stringify_business business).

Definition clearBusiness : Async unit :=
  setActiveBusiness None >>;
  AsyncStorage_removeItem ACTIVE_BUSINESS_STORAGE.


Definition refreshCart (view : ReactState) : Async unit :=
  setCart VNull >>;
  _setCartToken None >>;
  let* initialCart := getWooCommerceCart net JSON_stringify view in
  setCart initialCart.

(** [getPaymentGateways]: the [catch] only logs, and the function then falls
    through to [return []]. *)
Definition getPaymentGateways (view : ReactState) : Async JsVal :=
  try_catch
    (request net JSON_stringify view "payment-gateways" custom "GET" None ∅ None)
    (fun error => console_error error >>; ret VEmptyArray).

(** [handleAddOrUpdateItem] of [OrderScreen]. *)
Definition handleAddOrUpdateItem (view : ReactState) (productId : Z) : Async unit :=
  let currentQty := getItemQuantity view productId in
  updateBasket net JSON_stringify JSON_stringify_business view productId (currentQty + 1).

(** [onUpdateQuantity] of a row of the basket modal:
    [(newQuantity) => updateBasket(item.id, newQuantity)]. *)
Definition onUpdateQuantity (view : ReactState) (item : LineItem) (newQuantity : Z)
  : Async unit :=
  updateBasket net JSON_stringify JSON_stringify_business view (li_id item) newQuantity.

End Providers.

(** ** [toggleMode] and the delivery / collection toggle *)

(** [StoreApiShippingRate]: the fields [toggleMode] reads. *)
Record ShippingRate := {
  rate_id : string;
  rate_method_id : string   (* method_id *)
}.

(** [mode: 'delivery' | 'collection'] *)
Inductive Mode := delivery | collection.

Global Instance Mode_eq_dec : EqDecision Mode.
Proof. solve_decision. Defined.

Definition set_isDelivery (b : bool) (s : ReactState) : ReactState :=
  {| activeBusiness := activeBusiness s; authToken := authToken s; user := user s;
     cartToken := cartToken s; originBusiness := originBusiness s;
     conflictModalVisible := conflictModalVisible s; pendingItem := pendingItem s;
     cart := cart s; isDelivery := b; isSyncing := isSyncing s |}.

Definition setIsDelivery (b : bool) : Async unit := modify (set_isDelivery b).

Section Toggle.

Variable net : list Exchange -> Request -> FetchOutcome.
Variable JSON_stringify : JsVal -> string.

(** [CONFIG.SHIPPING_PACKAGE_ID], [CONFIG.DELIVERY_METHOD_ID] and
    [CONFIG.COLLECTION_METHOD_ID] of [constants/config]. *)
Variable SHIPPING_PACKAGE_ID : Z.
Variable DELIVERY_METHOD_ID : string.
Variable COLLECTION_METHOD_ID : string.

(** The rates of a shipping package, [shipping_rates[i].shipping_rates],
    which the record [ShippingPackage] does not carry; [None] when the
    package has no such field. *)
Variable package_rates : ShippingPackage -> option (list ShippingRate).

(** [cart?.shipping_rates[0].shipping_rates.find((s) => s.method_id ===
    findMethod)].  The optional chaining covers a [null] cart only; the outer
    [None] is the [TypeError] of a property read on [undefined]. *)
Definition find_rate (view : ReactState) (findMethod : string)
  : option (option ShippingRate) :=
  match cart view with
  | VUndefined | VNull => Some None
  | VCart c =>
      match shipping_rates c with
      | Some (pkg :: _) =>
          match package_rates pkg with
          | Some rates =>
              Some (List.find (fun s => String.eqb (rate_method_id s) findMethod) rates)
          | None => None
          end
      | Some [] | None => None
      end
  | VEmptyArray | VBatch _ | VObject _ => None
  end.

Definition toggleMode (view : ReactState) (mode : Mode) : Async unit :=
  setIsDelivery (bool_decide (mode = delivery)) >>;
  if isSyncing view then ret tt
  else
    setIsSyncing true >>;
    try_finally
      (try_catch
         (let findMethod :=
            match mode with
            | delivery => DELIVERY_METHOD_ID
            | collection => COLLECTION_METHOD_ID
            end in
          match find_rate view findMethod with
          | None => throw TypeError
          | Some None => ret tt
          | Some (Some shippingRate) =>
              updateShippingMethod net JSON_stringify view SHIPPING_PACKAGE_ID
                (Some (rate_id shippingRate)) >>;
              let* updatedCart := getWooCommerceCart net JSON_stringify view in
              setCart updatedCart
          end)
         (fun error => console_error error))
      (setIsSyncing false) >>;
    setIsSyncing false.

(** [handleToggle] of [DeliveryCollectionToggle]. *)
Definition handleToggle (view : ReactState) (newMode : Mode) : Async unit :=
  let newIsDelivery := bool_decide (newMode = delivery) in
  if negb (Bool.eqb newIsDelivery (isDelivery view)) then toggleMode view newMode
  else ret tt.

End Toggle.

(** The first render: the initial values of the [useState] and [useRef]
    calls of the two providers. *)
Definition initial_state : ReactState :=
  {| activeBusiness := None; authToken := None; user := None;
     cartToken := None; originBusiness := None;
     conflictModalVisible := false; pendingItem := None;
     cart := VNull; isDelivery := true; isSyncing := false |}.

Definition initial_refs : Refs :=
  {| cartTokenRef := None; cartRef := VNull; mounted := true |}.

(** The application started afresh on a device whose AsyncStorage holds
    [store]. *)
Definition started (store : gmap string string) : World :=
  {| rstate := initial_state; refs := initial_refs; storage := store;
     trace := []; console := [] |}.

(** ** Vocabulary of the further statements *)

(** The namespace [request] puts in front of the endpoint. *)
Definition api_namespace (apiType : ApiType) : string :=
  match apiType with
  | woocommerce => "wc/v3"
  | store => "wc/store/v1"
  | custom => "foodapp/v1"
  | auth | wordpress => ""
  end.

Definition without_leading_slash (endpoint : string) : string :=
  if startsWith endpoint "/" then
    match endpoint with
    | String _ rest => rest
    | EmptyString => endpoint
    end
  else endpoint.

(** The recorded origin and its copy in AsyncStorage agree. *)
Definition origin_persisted (JSON_stringify_business : Business -> string)
    (w : World) : Prop :=
  storage w !! ORIGIN_STORAGE = JSON_stringify_business <$> originBusiness (rstate w).

(** The cart token in memory and its copy in AsyncStorage agree. *)
Definition token_persisted (w : World) : Prop :=
  storage w !! CART_TOKEN_STORAGE = cartToken (rstate w).

(** [m] keeps [I]: whether it returns or throws. *)
Definition keeps {A} (I : World -> Prop) (m : Async A) : Prop :=
  forall w, I w -> I (snd (m w)).

(** While [syncCart] runs: the mounted flag does not move, the busy flag
    stays up, and the exchanges [h] sent so far stay in the trace. *)
Definition syncing (b : bool) (h : list Exchange) (w : World) : Prop :=
  mounted (refs w) = b /\ isSyncing (rstate w) = true
  /\ exists rest, trace w = (h ++ rest)%list.

(** A value [getCartUpdateEndpoint] can read [items] of, or skips. *)
Definition cart_or_nullish (v : JsVal) : Prop :=
  match v with
  | VUndefined | VNull | VCart _ => True
  | VEmptyArray | VBatch _ | VObject _ => False
  end.

(** The request [getCartUpdateEndpoint] names for one more unit of a
    product, as [handleAddOrUpdateItem] asks for it. *)
Definition one_more (itemId : Z) (c : Cart) : StoreApiUpdatePayload :=
  match find_item itemId (items c) with
  | Some line =>
      {| endpoint := "/cart/items/" ++ key line;
         payload := PQuantity (quantity line + 1);
         method := "PUT" |}
  | None =>
      {| endpoint := "/cart/add-item";
         payload := PAddItem (toString itemId) 1;
         method := "POST" |}
  end.

(** Further sample data. *)
Module Scenario.

(** A parser that knows the two sample businesses. *)
Definition parse_business (s : string) : option (option Business) :=
  if String.eqb s (Sample.stringify_business Sample.pizzeria) then Some (Some Sample.pizzeria)
  else if String.eqb s (Sample.stringify_business Sample.noodle_bar)
       then Some (Some Sample.noodle_bar)
       else if String.eqb s "null" then Some None else None.


(** A cart state that is not a cart: [GET /cart] once answered [{}]. *)
Definition malformed : World :=
  Sample.world_of
    (Sample.state_of (VObject None) None (Some Sample.pizzeria) (Some "tok-1")) [].


(** The rates of every package: one for delivery, one for collection. *)
Definition rates (pkg : ShippingPackage) : option (list ShippingRate) :=
  Some [ {| rate_id := "flat_rate:1"; rate_method_id := "flat_rate" |};
         {| rate_id := "local_pickup:2"; rate_method_id := "local_pickup" |} ].

(** [Sample.stocked] with one shipping package in its cart. *)
Definition packaged : World :=
  Sample.world_of
    (Sample.state_of
       (VCart {| items := [Sample.line42]; items_count := 1; total_price := "100";
                 shipping_rates := Some [ {| method_id := None; pkg_key := None |} ];
                 shipping_method := None |})
       (Some Sample.pizzeria) (Some Sample.pizzeria) (Some "tok-1"))
    (trace Sample.stocked).

End Scenario.

(** * Proofs *)

(** ** What one call of [request] does *)

Lemma api_frame_refl w : api_frame w w.
Proof. by split. Qed.

Lemma api_frame_trans w1 w2 w3 : api_frame w1 w2 -> api_frame w2 w3 -> api_frame w1 w3.
Proof. intros [A B C] [A' B' C']. split; congruence. Qed.

Lemma frame_cart w w' : api_frame w w' -> cart (rstate w') = cart (rstate w).
Proof. intros [H _ _]. by apply (f_equal cart) in H. Qed.

Lemma frame_originBusiness w w' :
  api_frame w w' -> originBusiness (rstate w') = originBusiness (rstate w).
Proof. intros [H _ _]. by apply (f_equal originBusiness) in H. Qed.


Lemma frame_pendingItem w w' : api_frame w w' -> pendingItem (rstate w') = pendingItem (rstate w).
Proof. intros [H _ _]. by apply (f_equal pendingItem) in H. Qed.

Lemma frame_conflictModalVisible w w' :
  api_frame w w' -> conflictModalVisible (rstate w') = conflictModalVisible (rstate w).
Proof. intros [H _ _]. by apply (f_equal conflictModalVisible) in H. Qed.

Lemma frame_origin_storage w w' :
  api_frame w w' -> storage w' !! ORIGIN_STORAGE = storage w !! ORIGIN_STORAGE.
Proof.
  intros [_ _ H].
  apply (f_equal (fun m : gmap string string => m !! ORIGIN_STORAGE)) in H.
  by rewrite !lookup_delete_ne in H.
Qed.

Section RequestFacts.

Variable net : list Exchange -> Request -> FetchOutcome.
Variable JSON_stringify : JsVal -> string.

Lemma request_props view endpoint apiType method body hdrs ov w res w' :
  request net JSON_stringify view endpoint apiType method body hdrs ov w = (res, w') ->
  api_call net JSON_stringify view endpoint apiType method body hdrs ov w res w'.
Proof.
  unfold api_call, request, bind, try_catch, read_refs, fetch, saveCartToken,
    response_json, error_text, console_error, throw, ret, _setCartToken, modify,
    AsyncStorage_setItem, AsyncStorage_removeItem, response_result, error_message,
    rotates, new_token.
  simpl. intros H.
  destruct (net (trace w) _) as [|r] eqn:Hnet; simpl in H.
  - inversion H; subst; clear H. simpl. repeat split; done.
  - destruct (cart_token_header r) as [t|] eqn:Hhdr; simpl in H |- *.
    + destruct (negb (String.eqb t "")) eqn:Ht; simpl in H |- *.
      * destruct (bool_decide (Some t = cartTokenRef (refs w))) eqn:Hd; simpl in H |- *.
        all: destruct (ok r); simpl in H |- *.
        all: try destruct (String.eqb method "DELETE"); simpl in H |- *.
        all: destruct (json r) as [[| | | | |[m|]]|]; simpl in H |- *.
        all: try destruct (negb (String.eqb m "")); simpl in H |- *.
        all: inversion H; subst; clear H; simpl.
        all: repeat split; try done.
        all: try (simpl; by rewrite lookup_insert_eq).
        all: try (simpl; by rewrite delete_insert_eq).
      * destruct (ok r); simpl in H |- *.
        all: try destruct (String.eqb method "DELETE"); simpl in H |- *.
        all: destruct (json r) as [[| | | | |[m|]]|]; simpl in H |- *.
        all: try destruct (negb (String.eqb m "")); simpl in H |- *.
        all: inversion H; subst; clear H; simpl.
        all: repeat split; done.
    + destruct (ok r); simpl in H |- *.
      all: try destruct (String.eqb method "DELETE"); simpl in H |- *.
      all: destruct (json r) as [[| | | | |[m|]]|]; simpl in H |- *.
      all: try destruct (negb (String.eqb m "")); simpl in H |- *.
      all: inversion H; subst; clear H; simpl.
      all: repeat split; done.
Qed.

(** [try { m } catch (error) { console.error(error); throw error }] keeps
    the outcome and everything but the console. *)
Lemma rethrow_props {A} (m : Async A) w res w' :
  try_catch m (fun error => console_error error >>; throw error) w = (res, w') ->
  exists w1, m w = (res, w1)
    /\ rstate w' = rstate w1 /\ refs w' = refs w1
    /\ storage w' = storage w1 /\ trace w' = trace w1
    /\ (forall a, res = Returned a -> w' = w1).
Proof.
  unfold try_catch, bind, console_error, throw.
  destruct (m w) as [[a|e] w1]; simpl; intros [= <- <-];
    eexists; repeat split; auto; discriminate.
Qed.

Lemma api_call_console view endpoint apiType method body hdrs ov w res w1 w' :
  api_call net JSON_stringify view endpoint apiType method body hdrs ov w res w1 ->
  rstate w' = rstate w1 -> refs w' = refs w1 ->
  storage w' = storage w1 -> trace w' = trace w1 ->
  api_call net JSON_stringify view endpoint apiType method body hdrs ov w res w'.
Proof.
  unfold api_call. intros (Ht & Hr & [F1 F2 F3] & Hk & Hs & Hc) E1 E2 E3 E4.
  repeat split; rewrite ?E1, ?E2, ?E3, ?E4; done.
Qed.

Lemma getWooCommerceCart_props view w res w' :
  getWooCommerceCart net JSON_stringify view w = (res, w') ->
  api_call net JSON_stringify view "/cart" store "GET" None ∅ None w res w'.
Proof.
  intros H. apply rethrow_props in H as (w1 & H & E1 & E2 & E3 & E4 & E5).
  apply request_props in H. eauto using api_call_console.
Qed.

Lemma sendWooCommerceCartUpdate_props view endpoint method data w res w' :
  sendWooCommerceCartUpdate net JSON_stringify view endpoint method data w = (res, w') ->
  api_call net JSON_stringify view endpoint store method data ∅ None w res w'.
Proof.
  intros H. apply rethrow_props in H as (w1 & H & E1 & E2 & E3 & E4 & E5).
  assert (request net JSON_stringify view endpoint store method data ∅ None w = (res, w1))
    as H' by (by destruct (String.eqb method "DELETE")).
  apply request_props in H'. eauto using api_call_console.
Qed.

Lemma sendWooCommerceCartBatch_props view payload w res w' :
  sendWooCommerceCartBatch net JSON_stringify view payload w = (res, w') ->
  api_call net JSON_stringify view "/batch" store "POST" (Some payload) ∅ None w res w'.
Proof.
  intros H. apply rethrow_props in H as (w1 & H & E1 & E2 & E3 & E4 & E5).
  apply request_props in H. eauto using api_call_console.
Qed.

Lemma clearCart_props view w res w' :
  clearCart net JSON_stringify view w = (res, w') ->
  if truthy_str (cartTokenRef (refs w)) then
    api_call net JSON_stringify view "/cart/items" store "DELETE" (Some PEmpty) ∅ None
      w res w'
  else res = Returned VUndefined /\ w' = w.
Proof.
  intros H. apply rethrow_props in H as (w1 & H & E1 & E2 & E3 & E4 & E5).
  unfold bind, read_refs in H.
  destruct (truthy_str (cartTokenRef (refs w))).
  - apply request_props in H. eauto using api_call_console.
  - inversion H; subst; clear H. split; [done|]. eauto.
Qed.

End RequestFacts.

Arguments request : simpl never.
Arguments getWooCommerceCart : simpl never.
Arguments sendWooCommerceCartUpdate : simpl never.
Arguments sendWooCommerceCartBatch : simpl never.
Arguments clearCart : simpl never.

(** ** What one run of [performBasketUpdate] does *)

Lemma accepted_result JSON_stringify ex :
  accepted ex ->
  exists v, response_result JSON_stringify (req_method (ex_request ex)) (ex_outcome ex)
            = Returned v
            /\ truthy v || String.eqb (req_method (ex_request ex)) "DELETE" = true.
Proof.
  intros (r & -> & Hok & Hm). unfold response_result. rewrite Hok. simpl.
  destruct Hm as [-> | (v & -> & Hv)].
  - exists VEmptyArray. done.
  - destruct (String.eqb _ "DELETE"); [by exists VEmptyArray|].
    exists v. by rewrite Hv.
Qed.

Lemma fetched_result JSON_stringify ex c :
  fetched ex c -> response_result JSON_stringify "GET" (ex_outcome ex) = Returned c.
Proof. intros (r & -> & Hok & Hj). unfold response_result. by rewrite Hok, Hj. Qed.

Lemma non_error_result JSON_stringify method ex :
  non_error ex ->
  match response_result JSON_stringify method (ex_outcome ex) with
  | Thrown (ApiError _ _) | Thrown NetworkError => False
  | _ => True
  end.
Proof.
  intros (r & -> & Hok). unfold response_result. rewrite Hok. simpl.
  destruct (String.eqb method "DELETE"); [done|]. by destruct (json r).
Qed.

Section BasketFacts.

Variable net : list Exchange -> Request -> FetchOutcome.
Variable JSON_stringify : JsVal -> string.
Variable JSON_stringify_business : Business -> string.

Lemma performBasketUpdate_run view itemId newQuantity w res w' p :
  performBasketUpdate net JSON_stringify view itemId newQuantity w = (res, w') ->
  getCartUpdateEndpoint itemId newQuantity (cartRef (refs w)) = Some p ->
  endpoint p <> "" ->
  let req1 := build_request view (cartTokenRef (refs w)) (endpoint p) store (method p)
                (Some (payload p)) ∅ None in
  let ex1 := exchange net (trace w) req1 in
  res = Returned tt
  /\ isSyncing (rstate w') = false
  /\ pendingItem (rstate w') = pendingItem (rstate w)
  /\ conflictModalVisible (rstate w') = conflictModalVisible (rstate w)
  /\ match response_result JSON_stringify (method p) (ex_outcome ex1) with
     | Thrown e =>
         trace w' = (trace w ++ [ex1])%list
         /\ cart (rstate w') = cart (rstate w)
         /\ originBusiness (rstate w') = originBusiness (rstate w)
         /\ exists l, console w' = (l ++ [e])%list
     | Returned v =>
         if truthy v || String.eqb (method p) "DELETE" then
           exists tok2,
             let ex2 := exchange net (trace w ++ [ex1]) (get_cart_request view tok2) in
             trace w' = (trace w ++ [ex1; ex2])%list
             /\ match response_result JSON_stringify "GET" (ex_outcome ex2) with
                | Returned c =>
                    cart (rstate w') = c
                    /\ originBusiness (rstate w') =
                         origin_after_refetch c (originBusiness (rstate w))
                | Thrown e =>
                    cart (rstate w') = cart (rstate w)
                    /\ originBusiness (rstate w') = originBusiness (rstate w)
                    /\ exists l, console w' = (l ++ [e])%list
                end
         else
           trace w' = (trace w ++ [ex1])%list
           /\ cart (rstate w') = cart (rstate w)
           /\ originBusiness (rstate w') = originBusiness (rstate w)
     end.
Proof.
  intros H Hp Hne req1 ex1.
  unfold performBasketUpdate, bind, read_refs, setIsSyncing, modify in H.
  simpl in H. rewrite Hp in H.
  apply String.eqb_neq in Hne. rewrite Hne in H.
  unfold try_finally, try_catch, bind in H.
  destruct (sendWooCommerceCartUpdate _ _ _ _ _ _ _) as [[v|e] w1] eqn:E1.
  all: apply sendWooCommerceCartUpdate_props in E1 as (T1 & R1 & F1 & K1 & S1 & C1).
  all: simpl in T1, R1, K1, S1, C1; fold req1 in T1, R1, K1, S1;
    change (net (trace w) req1) with (ex_outcome ex1) in R1;
    change {| ex_request := req1; ex_outcome := net (trace w) req1 |} with ex1 in T1.
  all: rewrite <- R1.
  - destruct (truthy v || String.eqb (method p) "DELETE").
    + destruct (getWooCommerceCart _ _ _ _) as [[c|e] w2] eqn:E2.
      all: apply getWooCommerceCart_props in E2 as (T2 & R2 & F2 & K2 & S2 & C2).
      all: rewrite T1 in T2, R2; simpl in T2, R2.
      all: pose proof (api_frame_trans _ _ _ F1 F2) as F.
      all: pose proof (frame_cart _ _ F) as Fc;
        pose proof (frame_originBusiness _ _ F) as Fo;
        pose proof (frame_pendingItem _ _ F) as Fp;
          pose proof (frame_conflictModalVisible _ _ F) as Fm; simpl in Fc, Fo, Fp, Fm.
      * unfold throw, ret, AsyncStorage_removeItem, console_error in H.
        assert (trace w2 = (trace w ++ [ex1; exchange net (trace w ++ [ex1])
                   (get_cart_request view (cartTokenRef (refs w1)))])%list) as T
          by (rewrite T2, <- app_assoc; done).
        destruct c as [| | |c| |]; simpl in H;
          try destruct (items_count c =? 0) eqn:Hc; simpl in H;
          injection H as <- <-; simpl.
        all: repeat split; try done.
        all: exists (cartTokenRef (refs w1)); simpl; split; [done|].
        all: unfold get_cart_request; rewrite <- R2; simpl; rewrite ?Hc; done.
      * unfold console_error in H. simpl in H. injection H as <- <-; simpl.
        repeat split; try done.
        exists (cartTokenRef (refs w1)); simpl; split; [by rewrite T2, <- app_assoc|].
        unfold get_cart_request; rewrite <- R2. eauto.
    + unfold ret in H. injection H as <- <-; simpl.
      pose proof (frame_cart _ _ F1) as Fc;
        pose proof (frame_originBusiness _ _ F1) as Fo;
        pose proof (frame_pendingItem _ _ F1) as Fp;
          pose proof (frame_conflictModalVisible _ _ F1) as Fm; simpl in Fc, Fo, Fp, Fm.
      repeat split; done.
  - unfold console_error in H. simpl in H. injection H as <- <-; simpl.
    pose proof (frame_cart _ _ F1) as Fc;
      pose proof (frame_originBusiness _ _ F1) as Fo;
      pose proof (frame_pendingItem _ _ F1) as Fp;
          pose proof (frame_conflictModalVisible _ _ F1) as Fm; simpl in Fc, Fo, Fp, Fm.
    repeat split; eauto.
Qed.

Lemma settled_refs w :
  settled w ->
  cartTokenRef (refs w) = cartToken (rstate w) /\ cartRef (refs w) = cart (rstate w).
Proof.
  unfold settled, commit. intros H. apply (f_equal refs) in H. simpl in H.
  rewrite <- H. done.
Qed.

Lemma updateBasket_proceeds view itemId newQuantity w :
  isSyncing view = false ->
  (newQuantity >? 0) && (itemCount view >? 0) && origin_differs view = false ->
  updateBasket net JSON_stringify JSON_stringify_business view itemId newQuantity w
  = performBasketUpdate net JSON_stringify view itemId newQuantity
      (before_update JSON_stringify_business view newQuantity w).
Proof.
  intros Hs Hc. unfold updateBasket, before_update. rewrite Hs, Hc.
  unfold bind. destruct ((newQuantity >? 0) && (itemCount view =? 0)); [|done].
  unfold record_origin. by destruct (activeBusiness view).
Qed.

Lemma before_update_settled view newQuantity w :
  settled w -> view = rstate w ->
  let w0 := before_update JSON_stringify_business view newQuantity w in
  refs w0 = refs w /\ trace w0 = trace w /\ cart (rstate w0) = cart (rstate w)
  /\ pendingItem (rstate w0) = pendingItem (rstate w)
  /\ originBusiness (rstate w0) =
       (if (newQuantity >? 0) && (itemCount view =? 0)
        then match activeBusiness view with
             | Some b => Some b
             | None => originBusiness (rstate w)
             end
        else originBusiness (rstate w)).
Proof.
  intros Hw ->. destruct (settled_refs w Hw) as [Ht Hc].
  unfold before_update, record_origin.
  destruct ((newQuantity >? 0) && (itemCount (rstate w) =? 0)); [|done].
  destruct (activeBusiness (rstate w)); [|done].
  simpl. rewrite <- Ht, <- Hc. by destruct (refs w).
Qed.

Lemma refetch_run view w1 res w2 :
  bind (getWooCommerceCart net JSON_stringify view) (fun c => setCart c) w1 = (res, w2) ->
  let g := exchange net (trace w1) (get_cart_request view (cartTokenRef (refs w1))) in
  trace w2 = (trace w1 ++ [g])%list
  /\ match response_result JSON_stringify "GET" (ex_outcome g) with
     | Returned c => res = Returned tt /\ cart (rstate w2) = c
     | Thrown e => res = Thrown e
     end.
Proof.
  unfold bind. intros H.
  destruct (getWooCommerceCart _ _ _ _) as [[c|e] w3] eqn:E.
  all: apply getWooCommerceCart_props in E as (T & R & _).
  all: unfold get_cart_request, exchange; simpl; rewrite <- R.
  - unfold setCart, modify in H. by injection H as <- <-.
  - by injection H as <- <-.
Qed.

(** The [catch] block of [reorderItems]. *)
Lemma resync_run view error w1 res w2 :
  bind (console_error error)
    (fun _ => bind (getWooCommerceCart net JSON_stringify view) (fun c => setCart c)) w1
  = (res, w2) ->
  let g := exchange net (trace w1) (get_cart_request view (cartTokenRef (refs w1))) in
  trace w2 = (trace w1 ++ [g])%list
  /\ match response_result JSON_stringify "GET" (ex_outcome g) with
     | Returned c => res = Returned tt /\ cart (rstate w2) = c
     | Thrown e => res = Thrown e
     end.
Proof.
  unfold bind at 1, console_error. intros H. by apply refetch_run in H.
Qed.

(** The last fetch of the [try] block, with the fallback of the [catch]. *)
Lemma refetch_with_fallback view w1 res w2 :
  (let (o, w) := bind (getWooCommerceCart net JSON_stringify view) (fun c => setCart c) w1 in
   match o with
   | Returned a => (Returned a, w)
   | Thrown e =>
       bind (console_error e)
         (fun _ => bind (getWooCommerceCart net JSON_stringify view) (fun c => setCart c)) w
   end) = (res, w2) ->
  exists gets, trace w2 = (trace w1 ++ gets)%list /\ Forall (is_get_cart view) gets.
Proof.
  destruct (bind _ _ w1) as [[a|e] w3] eqn:E; intros H.
  - injection H as <- <-. apply refetch_run in E as [T _].
    eexists. split; [exact T|]. repeat constructor. by eexists.
  - apply refetch_run in E as [T _]. apply resync_run in H as [T' _].
    rewrite T, <- app_assoc in T'. eexists. split; [exact T'|].
    repeat constructor; by eexists.
Qed.

Lemma failedRequests_world v w r w' : failedRequests v w = (r, w') -> w' = w.
Proof.
  destruct v as [| | | |[rs|]|]; unfold failedRequests, throw, ret; congruence.
Qed.

Lemma failed_nonempty rs :
  Exists (fun sr => 400 <= sub_status sr) rs ->
  (0 <? length (List.filter (fun res => sub_status res >=? 400) rs))%nat = true.
Proof.
  induction 1 as [sr rs Hsr | sr rs _ IH]; simpl.
  - destruct (Z.geb_spec (sub_status sr) 400); [done | lia].
  - destruct (sub_status sr >=? 400); [done | exact IH].
Qed.

Lemma partial_failure_result ex :
  partial_failure ex ->
  exists rs, response_result JSON_stringify "POST" (ex_outcome ex) = Returned (VBatch (Some rs))
             /\ Exists (fun sr => 400 <= sub_status sr) rs.
Proof.
  intros (r & rs & -> & Hok & Hj & Hex). exists rs. split; [|done].
  unfold response_result. by rewrite Hok, Hj.
Qed.

Lemma try_catch_cases {A} (m : Async A) (h : JsError -> Async A) w res w2 :
  try_catch m h w = (res, w2) ->
  (exists a, m w = (Returned a, w2) /\ res = Returned a)
  \/ (exists e w1, m w = (Thrown e, w1) /\ h e w1 = (res, w2)).
Proof.
  unfold try_catch. destruct (m w) as [[a|e] w1]; intros H.
  - injection H as <- <-. left. eauto.
  - right. eauto.
Qed.

Lemma try_finally_syncing {A} (m : Async A) w res w' :
  try_finally m (setIsSyncing false) w = (res, w') ->
  exists w2, m w = (res, w2) /\ w' = with_rstate (set_isSyncing false) w2.
Proof.
  unfold try_finally, setIsSyncing, modify. destruct (m w) as [r w2].
  intros [= <- <-]. eauto.
Qed.

(** The [try] block of [reorderItems], run from [w0], the world of [w] with
    the busy flag raised. *)
Lemma reorder_try_run view items w rt wt :
  let w0 := with_rstate (set_isSyncing true) w in
  let tok := cartTokenRef (refs w) in
  let cleared :=
    if truthy_str tok then [exchange net (trace w) (clear_request view tok)] else [] in
  (clearCart net JSON_stringify view >>;
   let* r := read_refs in
   let currentCartToken := cartTokenRef r in
   if (length items =? 0)%nat then
     let* emptyCart := getWooCommerceCart net JSON_stringify view in
     setCart emptyCart
   else
     let batchPayload := PBatch (batchRequests currentCartToken items) in
     let* batchResponse := sendWooCommerceCartBatch net JSON_stringify view batchPayload in
     let* failed := failedRequests batchResponse in
     if (0 <? length failed)%nat then throw (BatchError (length failed))
     else
       let* updatedCart := getWooCommerceCart net JSON_stringify view in
       setCart updatedCart) w0 = (rt, wt) ->
  exists batch gets,
    trace wt = (trace w ++ cleared ++ batch ++ gets)%list
    /\ Forall (is_get_cart view) gets
    /\ (batch = []
        \/ exists tokb,
            batch = [exchange net (trace w ++ cleared) (batch_request view tokb items)])
    /\ (items = [] -> batch = [])
    /\ (items <> [] -> Forall non_error cleared -> batch <> [])
    /\ (forall exb, batch = [exb] -> partial_failure exb ->
          gets = [] /\ exists e, rt = Thrown e).
Proof.
  intros w0 tok cleared H. subst tok.
  unfold bind at 1 in H.
  destruct (clearCart _ _ _ _) as [r1 w1] eqn:E1.
  apply clearCart_props in E1. simpl in E1.
  assert (trace w1 = (trace w ++ cleared)%list
          /\ (forall e, r1 = Thrown e -> ~ Forall non_error cleared))
    as (A1 & A2).
  { subst cleared. destruct (truthy_str (cartTokenRef (refs w))).
    - destruct E1 as (T & R & _). simpl in T, R. split; [exact T|].
      intros e -> Hall. apply Forall_cons in Hall as [Hne _].
      apply (non_error_result JSON_stringify "DELETE") in Hne.
      unfold exchange, clear_request in Hne. cbn [ex_outcome] in Hne.
      destruct (net (trace w) _) as [|r]; simpl in R, Hne; [done|].
      destruct (ok r); simpl in R, Hne; [discriminate R | done].
    - destruct E1 as [-> ->]. simpl. by rewrite app_nil_r. }
  clearbody cleared. clear E1.
  destruct r1 as [v1|e1].
  2:{ injection H as <- <-. exists [], []. simpl. rewrite app_nil_r.
      split_and!; try done.
      - by left.
      - intros _ Hall _. exact (A2 e1 eq_refl Hall). }
  unfold bind at 1, read_refs in H.
  destruct (Nat.eqb_spec (length items) 0) as [Hlen|Hlen].
  { apply refetch_run in H as [T _]. eexists [], [_]. simpl.
    rewrite T, A1, <- app_assoc. split_and!; try done.
    - repeat constructor. by eexists.
    - by left.
    - intros Hne. by destruct items. }
  unfold bind at 1 in H.
  destruct (sendWooCommerceCartBatch _ _ _ _ w1) as [rb wb] eqn:Eb.
  apply sendWooCommerceCartBatch_props in Eb as (Tb & Rb & _).
  set (exb := exchange net (trace w ++ cleared)
                (batch_request view (cartTokenRef (refs w1)) items)).
  assert (trace wb = (trace w ++ cleared ++ [exb])%list) as Tb'.
  { rewrite Tb, A1, <- app_assoc. done. }
  assert (rb = response_result JSON_stringify "POST" (ex_outcome exb)) as Rb'.
  { rewrite Rb, A1. done. }
  clear Tb Rb.
  assert (items <> []) as Hitems by (intros ->; done).
  destruct rb as [v|e].
  2:{ injection H as <- <-. exists [exb], []. rewrite Tb'.
      split_and!; try done.
      - right. by eexists.
      - intros exb' [= <-] (rs & Hr & _)%partial_failure_result. congruence. }
  unfold bind at 1 in H.
  destruct (failedRequests v wb) as [[failed|e] wf] eqn:Ef.
  2:{ injection H as <- <-. exists [exb], [].
      apply failedRequests_world in Ef as ->.
      rewrite Tb'. split_and!; try done.
      - right. by eexists.
      - eauto. }
  pose proof (failedRequests_world _ _ _ _ Ef) as ->.
  destruct (0 <? length failed)%nat eqn:Hf.
  { injection H as <- <-. exists [exb], []. rewrite Tb'.
    split_and!; try done.
    - right. by eexists.
    - eauto. }
  apply refetch_run in H as [T _]. eexists [exb], [_].
  rewrite T, Tb', <- !app_assoc. split_and!; try done.
  - repeat constructor. by eexists.
  - right. by eexists.
  - intros exb' [= <-] (rs & Hr & Hex)%partial_failure_result.
    rewrite <- Rb' in Hr. injection Hr as ->. simpl in Ef.
    unfold ret in Ef. injection Ef as <-.
    apply failed_nonempty in Hex. congruence.
Qed.

Lemma reorderItems_run view items w res w' :
  isSyncing view = false ->
  reorderItems net JSON_stringify view items w = (res, w') ->
  let tok := cartTokenRef (refs w) in
  let cleared :=
    if truthy_str tok then [exchange net (trace w) (clear_request view tok)] else [] in
  exists batch gets,
    trace w' = (trace w ++ cleared ++ batch ++ gets)%list
    /\ Forall (is_get_cart view) gets
    /\ (batch = []
        \/ exists tokb,
            batch = [exchange net (trace w ++ cleared) (batch_request view tokb items)])
    /\ (items = [] -> batch = [])
    /\ (items <> [] -> Forall non_error cleared -> batch <> [])
    /\ (forall exb, batch = [exb] -> partial_failure exb ->
          exists g, gets = [g]
            /\ forall c, fetched g c -> cart (rstate w') = c /\ res = Returned tt).
Proof.
  intros Hs H tok cleared.
  unfold reorderItems in H. rewrite Hs in H.
  unfold bind at 1, setIsSyncing at 1, modify in H.
  apply try_finally_syncing in H as (w2 & H & ->).
  apply try_catch_cases in H as [(a & H & ->) | (e & wt & H & Hc)].
  - apply reorder_try_run in H as (batch & gets & T & G & B & I & N & P).
    exists batch, gets. split_and!; try done.
    intros exb Hb Hp. destruct (P exb Hb Hp) as (_ & e & He). discriminate He.
  - apply reorder_try_run in H as (batch & gets & T & G & B & I & N & P).
    apply resync_run in Hc as [T2 R2].
    set (g := exchange net (trace wt) (get_cart_request view (cartTokenRef (refs wt)))) in *.
    exists batch, (gets ++ [g])%list. simpl.
    rewrite T2, T, <- !app_assoc. split_and!; try done.
    + apply Forall_app. split; [done|]. repeat constructor. by eexists.
    + intros exb Hb Hp. destruct (P exb Hb Hp) as (-> & _). eexists. split; [done|].
      intros c Hf. apply (fetched_result JSON_stringify) in Hf. rewrite Hf in R2.
      by destruct R2.
Qed.


Lemma refetch_origin view w1 res w2 :
  bind (getWooCommerceCart net JSON_stringify view) (fun c => setCart c) w1 = (res, w2) ->
  originBusiness (rstate w2) = originBusiness (rstate w1).
Proof.
  unfold bind. intros H.
  destruct (getWooCommerceCart _ _ _ _) as [[c|e] w3] eqn:E.
  all: apply getWooCommerceCart_props in E as (_ & _ & F & _).
  all: apply frame_originBusiness in F.
  - unfold setCart, modify in H. by injection H as <- <-.
  - by injection H as <- <-.
Qed.

(** [reorderItems] never touches the recorded origin. *)
Lemma reorderItems_keeps_origin view items w :
  originBusiness (rstate (snd (reorderItems net JSON_stringify view items w)))
  = originBusiness (rstate w).
Proof.
  destruct (reorderItems _ _ _ _ _) as [res w'] eqn:H. simpl.
  unfold reorderItems in H. destruct (isSyncing view).
  { by injection H as <- <-. }
  unfold bind at 1, setIsSyncing at 1, modify in H.
  apply try_finally_syncing in H as (w2 & H & ->). simpl.
  assert (forall rt wt,
             (clearCart net JSON_stringify view >>;
              let* r := read_refs in
              let currentCartToken := cartTokenRef r in
              if (length items =? 0)%nat then
                let* emptyCart := getWooCommerceCart net JSON_stringify view in
                setCart emptyCart
              else
                let batchPayload := PBatch (batchRequests currentCartToken items) in
                let* batchResponse :=
                  sendWooCommerceCartBatch net JSON_stringify view batchPayload in
                let* failed := failedRequests batchResponse in
                if (0 <? length failed)%nat then throw (BatchError (length failed))
                else
                  let* updatedCart := getWooCommerceCart net JSON_stringify view in
                  setCart updatedCart) (with_rstate (set_isSyncing true) w) = (rt, wt) ->
             originBusiness (rstate wt) = originBusiness (rstate w)) as Htry.
  { intros rt wt Ht. unfold bind at 1 in Ht.
    destruct (clearCart _ _ _ _) as [r1 w1] eqn:E1.
    apply clearCart_props in E1.
    assert (originBusiness (rstate w1) = originBusiness (rstate w)) as O1.
    { destruct (truthy_str _).
      - destruct E1 as (_ & _ & F & _). by apply frame_originBusiness in F.
      - by destruct E1 as [_ ->]. }
    destruct r1 as [v1|e1]; [|by injection Ht as <- <-].
    unfold bind at 1, read_refs in Ht.
    destruct (length items =? 0)%nat.
    { apply refetch_origin in Ht. congruence. }
    unfold bind at 1 in Ht.
    destruct (sendWooCommerceCartBatch _ _ _ _ w1) as [rb wb] eqn:Eb.
    apply sendWooCommerceCartBatch_props in Eb as (_ & _ & F & _).
    apply frame_originBusiness in F.
    destruct rb as [v|e]; [|injection Ht as <- <-; congruence].
    unfold bind at 1 in Ht.
    destruct (failedRequests v wb) as [[failed|e] wf] eqn:Ef;
      apply failedRequests_world in Ef as ->; [|injection Ht as <- <-; congruence].
    destruct (0 <? length failed)%nat; [injection Ht as <- <-; congruence|].
    apply refetch_origin in Ht. congruence. }
  apply try_catch_cases in H as [(a & H & ->) | (e & wt & H & Hc)].
  - by apply Htry in H.
  - apply Htry in H. unfold bind at 1, console_error in Hc.
    apply refetch_origin in Hc. simpl in Hc. congruence.
Qed.

End BasketFacts.



Lemma batchRequests_adds_lines tok items :
  Forall2 adds_line items (batchRequests tok items).
Proof. induction items; constructor; [done | exact IHitems]. Qed.

Lemma not_non_error_result JSON_stringify method ex :
  ~ non_error ex ->
  exists e, response_result JSON_stringify method (ex_outcome ex) = Thrown e.
Proof.
  intros Hne. unfold response_result. destruct (ex_outcome ex) as [|r] eqn:Ho; [eauto|].
  destruct (ok r) eqn:Hok; simpl; [|eauto].
  destruct Hne. by exists r.
Qed.

Section Claims.

Variable net : list Exchange -> Request -> FetchOutcome.
Variable JSON_stringify : JsVal -> string.
Variable JSON_stringify_business : Business -> string.
Variable SHIPPING_PACKAGE_ID : Z.


Lemma trace_not_longer {A} (l : list A) x rest : l <> (l ++ x :: rest)%list.
Proof.
  intros H. apply (f_equal length) in H. rewrite length_app in H. simpl in H. lia.
Qed.

Lemma commit_settled w : settled (commit w).
Proof. done. Qed.

Lemma step_refetched op w :
  refetched_when accepted (commit w)
    (step net JSON_stringify JSON_stringify_business op w).
Proof.
  destruct op as [itemId q]. unfold step, call, refetched_when. cbn [fst snd].
  set (w0 := commit w). set (view := rstate w0).
  intros ex rest Ht Hacc.
  destruct (isSyncing view) eqn:Hs.
  { unfold updateBasket in Ht. rewrite Hs in Ht. by apply trace_not_longer in Ht. }
  destruct ((q >? 0) && (itemCount view >? 0) && origin_differs view) eqn:Hc.
  { unfold updateBasket in Ht. rewrite Hs, Hc in Ht. by apply trace_not_longer in Ht. }
  rewrite updateBasket_proceeds in Ht |- * by done.
  destruct (before_update_settled JSON_stringify_business view q w0 (commit_settled w) eq_refl)
    as (E1 & E2 & _).
  set (wb := before_update JSON_stringify_business view q w0) in *.
  destruct (getCartUpdateEndpoint itemId q (cartRef (refs wb))) as [p|] eqn:Hp.
  2:{ unfold performBasketUpdate, bind, setIsSyncing, modify, read_refs in Ht.
      simpl in Ht. rewrite Hp in Ht. simpl in Ht. rewrite E2 in Ht.
      by apply trace_not_longer in Ht. }
  destruct (String.eqb_spec (endpoint p) "") as [He|He].
  { unfold performBasketUpdate, bind, setIsSyncing, modify, read_refs in Ht.
    simpl in Ht. rewrite Hp, He in Ht. simpl in Ht. rewrite E2 in Ht.
    by apply trace_not_longer in Ht. }
  destruct (performBasketUpdate net JSON_stringify view itemId q wb) as [res w1] eqn:H.
  simpl in Ht.
  destruct (performBasketUpdate_run net JSON_stringify _ _ _ _ _ _ _ H Hp He)
    as (_ & _ & _ & _ & Hrun).
  rewrite E1, E2 in Hrun.
  set (ex1 := exchange net (trace w0) _) in Hrun.
  change (trace w) with (trace w0) in Ht.
  assert (req_method (ex_request ex1) = method p) as Hm by done.
  assert (ex = ex1) as ->.
  { destruct (response_result _ _ _) as [v|e]; [destruct (truthy v || _)|].
    - destruct Hrun as (tok2 & Ht' & _). rewrite Ht' in Ht.
      apply app_inv_head in Ht. by injection Ht.
    - destruct Hrun as (Ht' & _). rewrite Ht' in Ht.
      apply app_inv_head in Ht. by injection Ht.
    - destruct Hrun as (Ht' & _). rewrite Ht' in Ht.
      apply app_inv_head in Ht. by injection Ht. }
  destruct (accepted_result JSON_stringify _ Hacc) as (v & Hv & Hgo).
  rewrite Hm in Hv, Hgo. rewrite Hv, Hgo in Hrun.
  destruct Hrun as (tok2 & Ht' & Hget).
  rewrite Ht' in Ht. apply app_inv_head in Ht. injection Ht as <-.
  eexists. split; [done|]. split; [by exists tok2|].
  intros c Hf. apply (fetched_result JSON_stringify) in Hf.
  simpl in Hf, Hget. rewrite Hf in Hget. by destruct Hget.
Qed.

(** C1, as the code has it. For every sequence of add / update / remove calls
    made one at a time, each from a settled render: whenever the mutation of
    a call is answered without error and the answer passes the engine's test
    (a truthy body, which every cart object is, or a DELETE), the engine then
    sends exactly one [GET /cart], and when that fetch yields a value the
    local cart is that value, not the body of the mutation response. *)
Theorem cart_is_refetched_after_each_mutation (ops : list (Z * Z)) (w w0 w1 : World) :
  (w0, w1) ∈ run_ops net JSON_stringify JSON_stringify_business ops w ->
  refetched_when accepted w0 w1.
Proof.
  revert w. induction ops as [|op ops IH]; intros w; simpl.
  - intros H. by apply elem_of_nil in H.
  - intros [[= -> ->] | H]%elem_of_cons; [apply step_refetched | by apply (IH _ H)].
Qed.

(** C10. A request sent with method DELETE never hands the server's body to
    its caller: on a successful response [request] returns the empty array
    whatever the body was, so neither [request], nor an item removal through
    [sendWooCommerceCartUpdate], nor [clearCart] ever returns a cart. *)
Theorem delete_returns_empty_array :
  (forall view endpoint apiType body hdrs ov w r,
      net (trace w)
        (build_request view (cartTokenRef (refs w)) endpoint apiType "DELETE" body hdrs ov)
      = Responded r ->
      ok r = true ->
      fst (request net JSON_stringify view endpoint apiType "DELETE" body hdrs ov w)
      = Returned VEmptyArray)
  /\ (forall view endpoint apiType body hdrs ov w c,
        fst (request net JSON_stringify view endpoint apiType "DELETE" body hdrs ov w)
        <> Returned (VCart c))
  /\ (forall view endpoint data w c,
        fst (sendWooCommerceCartUpdate net JSON_stringify view endpoint "DELETE" data w)
        <> Returned (VCart c))
  /\ (forall view w c,
        fst (clearCart net JSON_stringify view w) <> Returned (VCart c))
  /\ (forall view userId addressId w,
        exists ex,
          trace (snd (deleteCustomerAddress net JSON_stringify view userId addressId w))
          = (trace w ++ [ex])%list
          /\ req_method (ex_request ex) = "DELETE").
Proof.
  assert (forall out c, response_result JSON_stringify "DELETE" out <> Returned (VCart c))
    as Hnever.
  { intros [|r] c; simpl; [done|]. by destruct (negb (ok r)). }
  split_and!.
  - intros view endpoint apiType body hdrs ov w r Hnet Hok.
    destruct (request _ _ _ _ _ _ _ _ _ w) as [res w'] eqn:H.
    apply request_props in H as (_ & -> & _). simpl.
    rewrite Hnet. simpl. by rewrite Hok.
  - intros view endpoint apiType body hdrs ov w c.
    destruct (request _ _ _ _ _ _ _ _ _ w) as [res w'] eqn:H.
    apply request_props in H as (_ & -> & _). apply Hnever.
  - intros view endpoint data w c.
    destruct (sendWooCommerceCartUpdate _ _ _ _ _ _ w) as [res w'] eqn:H.
    apply sendWooCommerceCartUpdate_props in H as (_ & -> & _). apply Hnever.
  - intros view w c.
    destruct (clearCart _ _ _ w) as [res w'] eqn:H.
    apply clearCart_props in H. destruct (truthy_str _).
    + destruct H as (_ & -> & _). apply Hnever.
    + by destruct H as [-> _].
  - intros view userId addressId w.
    destruct (deleteCustomerAddress _ _ _ _ _ w) as [res w'] eqn:H. cbn [snd].
    apply rethrow_props in H as (w1 & H & _ & _ & _ & -> & _).
    unfold bind in H.
    destruct (request _ _ _ _ _ _ _ _ _ w) as [[v|e] w2] eqn:E;
      apply request_props in E as (T & _); injection H as _ <-;
      eexists; (split; [exact T | done]).
Qed.



(** C6, as the code has it. [batchAdd] sends the clear request
    ([DELETE /cart/items]) when a cart token is held, and none otherwise.
    For a non-empty list of N line items, once the clear has gone through,
    it sends exactly one batch request ([POST /batch]) holding N add-item
    sub-requests, one per line item in order; for an empty list it sends no
    batch request.  Every other request of the operation is a [GET /cart]:
    there are never N sequential adds.  When a sub-response of the batch
    reports a status of 400 or more, exactly one [GET /cart] follows and,
    when that fetch succeeds, the local cart is the fetched one. *)
Theorem batchAdd_sends_one_batch view items w res w' :
  isSyncing view = false ->
  reorderItems net JSON_stringify view items w = (res, w') ->
  let tok := cartTokenRef (refs w) in
  let cleared :=
    if truthy_str tok then [exchange net (trace w) (clear_request view tok)] else [] in
  exists batch gets,
    trace w' = (trace w ++ cleared ++ batch ++ gets)%list
    /\ Forall (is_get_cart view) gets
    /\ (items = [] -> batch = [])
    /\ (batch = []
        \/ exists tokb,
            batch = [exchange net (trace w ++ cleared) (batch_request view tokb items)]
            /\ Forall2 adds_line items (batchRequests tokb items))
    /\ (items <> [] -> Forall non_error cleared -> batch <> [])
    /\ (forall exb, batch = [exb] -> partial_failure exb ->
          exists g, gets = [g] /\ forall c, fetched g c -> cart (rstate w') = c).
Proof.
  intros Hs H tok cleared.
  destruct (reorderItems_run net JSON_stringify view items w res w' Hs H)
    as (batch & gets & T & G & B & I & N & P).
  exists batch, gets. split_and!; try done.
  - destruct B as [->|(tokb & ->)]; [by left|].
    right. exists tokb. split; [done|]. apply batchRequests_adds_lines.
  - intros exb Hb Hp. destruct (P exb Hb Hp) as (g & -> & Hg).
    exists g. split; [done|]. intros c Hf. by destruct (Hg c Hf).
Qed.

(** C7, as the code has it. (a) The service layer throws: a transport
    failure or a non-success status makes [sendWooCommerceCartUpdate] throw,
    after one attempt. (b) The basket engine catches: [performBasketUpdate]
    then returns normally, having logged the error, sent nothing more (no
    retry, no re-fetch) and left the local cart as it was. (c) After a batch
    partial failure [batchAdd] re-fetches the cart once; when that fetch
    succeeds the local cart is the fetched one and the call returns
    normally: the failure is not re-thrown. *)
Theorem failures_are_caught_by_the_engine :
  (forall view endpoint method data w res w',
      sendWooCommerceCartUpdate net JSON_stringify view endpoint method data w = (res, w') ->
      let ex := exchange net (trace w)
                  (build_request view (cartTokenRef (refs w)) endpoint store method
                     data ∅ None) in
      trace w' = (trace w ++ [ex])%list
      /\ (ex_outcome ex = NetworkFailure -> res = Thrown NetworkError)
      /\ (forall r, ex_outcome ex = Responded r -> ok r = false ->
                    res = Thrown (ApiError (status r) (error_message JSON_stringify r))))
  /\ (forall view itemId quantity w p res w',
        performBasketUpdate net JSON_stringify view itemId quantity w = (res, w') ->
        getCartUpdateEndpoint itemId quantity (cartRef (refs w)) = Some p ->
        endpoint p <> "" ->
        let ex := exchange net (trace w)
                    (build_request view (cartTokenRef (refs w)) (endpoint p) store
                       (method p) (Some (payload p)) ∅ None) in
        ~ non_error ex ->
        res = Returned tt
        /\ trace w' = (trace w ++ [ex])%list
        /\ cart (rstate w') = cart (rstate w)
        /\ exists e l, console w' = (l ++ [e])%list)
  /\ (forall view items w res w',
        isSyncing view = false ->
        reorderItems net JSON_stringify view items w = (res, w') ->
        let tok := cartTokenRef (refs w) in
        let cleared :=
          if truthy_str tok then [exchange net (trace w) (clear_request view tok)]
          else [] in
        exists batch gets,
          trace w' = (trace w ++ cleared ++ batch ++ gets)%list
          /\ Forall (is_get_cart view) gets
          /\ (batch = []
              \/ exists tokb,
                  batch = [exchange net (trace w ++ cleared)
                             (batch_request view tokb items)])
          /\ (forall exb, batch = [exb] -> partial_failure exb ->
                exists g, gets = [g]
                  /\ forall c, fetched g c -> cart (rstate w') = c /\ res = Returned tt)).
Proof.
  split_and!.
  - intros view endpoint method data w res w' H ex.
    apply sendWooCommerceCartUpdate_props in H as (T & -> & _).
    split_and!; [done | |].
    + unfold ex, exchange. simpl. by intros ->.
    + unfold ex, exchange. simpl. intros r -> Hok. simpl. by rewrite Hok.
  - intros view itemId quantity w p res w' H Hp He ex Hne.
    destruct (performBasketUpdate_run net JSON_stringify _ _ _ _ _ _ _ H Hp He)
      as (-> & _ & _ & _ & Hrun).
    destruct (not_non_error_result JSON_stringify (method p) ex Hne) as (e & Hr).
    fold ex in Hrun. rewrite Hr in Hrun. destruct Hrun as (T & C & _ & l & Hl).
    split_and!; eauto.
  - intros view items w res w' Hs H tok cleared.
    destruct (reorderItems_run net JSON_stringify view items w res w' Hs H)
      as (batch & gets & T & G & B & _ & _ & P).
    by exists batch, gets.
Qed.



End Claims.


(** C1, counterexample. The service answers [POST /cart/add-item] with status
    200 and the JSON body [null]: the response is not an error, yet
    [performBasketUpdate] skips the re-fetch and no [GET /cart] follows. *)
Lemma null_body_is_not_refetched :
  ~ refetched_on_any_non_error Sample.null_body Sample.stringify
      Sample.stringify_business [(42, 1)] Sample.fresh.
Proof.
  intros H. specialize (H _ _ (list_elem_of_here _ _)).
  set (post := build_request (rstate Sample.fresh) (Some "tok-1") "/cart/add-item"
                 store "POST" (Some (PAddItem "42" 1)) ∅ None).
  destruct (H (exchange Sample.null_body [] post) []) as (ex2 & Hrest & _).
  - vm_compute. reflexivity.
  - eexists. split; reflexivity.
  - discriminate Hrest.
Qed.

Lemma cart_is_refetched_after_each_mutation_witness :
  cart (rstate (step Sample.net Sample.stringify Sample.stringify_business (42, 1)
                  Sample.fresh))
  = VCart (Sample.cart_of [Sample.line42]).
Proof.
  pose proof (cart_is_refetched_after_each_mutation Sample.net Sample.stringify
                Sample.stringify_business [(42, 1)] Sample.fresh _ _
                (list_elem_of_here _ _)) as H.
  set (post := build_request (rstate Sample.fresh) (Some "tok-1") "/cart/add-item"
                 store "POST" (Some (PAddItem "42" 1)) ∅ None).
  set (ex1 := exchange Sample.net [] post).
  set (ex2 := exchange Sample.net [ex1] (get_cart_request (rstate Sample.fresh) (Some "tok-1"))).
  destruct (H ex1 [ex2]) as (ex & Hrest & _ & Hcart).
  - vm_compute. reflexivity.
  - exists (Sample.respond 201 (VCart (Sample.cart_of [Sample.line42]))).
    split; [vm_compute; reflexivity|]. split; [reflexivity|]. right.
    eexists. split; reflexivity.
  - injection Hrest as <-. apply Hcart.
    exists (Sample.respond 200 (VCart (Sample.cart_of [Sample.line42]))).
    split; [vm_compute; reflexivity|]. split; reflexivity.
Defined.

Lemma delete_returns_empty_array_witness :
  fst (request Sample.net Sample.stringify (rstate Sample.stocked) "/cart/items/k42" store
         "DELETE" (Some PEmpty) ∅ None Sample.stocked)
  = Returned VEmptyArray.
Proof.
  apply (proj1 (delete_returns_empty_array Sample.net Sample.stringify))
    with (r := Sample.respond 200 (VCart (Sample.cart_of []))).
  - vm_compute. reflexivity.
  - reflexivity.
Defined.





(** C6, counterexample. For an empty list of line items the operation sends
    the clear request and one [GET /cart], and no batch request. *)
Lemma empty_reorder_sends_no_batch :
  ~ one_clear_then_one_batch Sample.net Sample.stringify (rstate Sample.fresh) []
      Sample.fresh.
Proof.
  intros (c & b & gets & Ht & _ & (tok & Hb) & _).
  assert (List.map (fun ex => req_method (ex_request ex))
            (trace (snd (reorderItems Sample.net Sample.stringify (rstate Sample.fresh) []
                           Sample.fresh))) = ["DELETE"; "GET"]) as Hsent
    by (vm_compute; reflexivity).
  rewrite Ht in Hsent. change (trace Sample.fresh) with (@nil Exchange) in Hsent.
  simpl in Hsent. injection Hsent as _ Hm _.
  rewrite Hb in Hm. discriminate Hm.
Qed.

Lemma batchAdd_sends_one_batch_witness :
  let view := rstate Sample.fresh in
  let items := [Sample.order_line 7 2; Sample.order_line 5 1] in
  let w := Sample.fresh in
  let w' := snd (reorderItems Sample.net Sample.stringify view items w) in
  let tok := cartTokenRef (refs w) in
  let cleared :=
    if truthy_str tok then [exchange Sample.net (trace w) (clear_request view tok)]
    else [] in
  exists batch gets,
    trace w' = (trace w ++ cleared ++ batch ++ gets)%list
    /\ Forall (is_get_cart view) gets
    /\ (items = [] -> batch = [])
    /\ (batch = []
        \/ exists tokb,
            batch = [exchange Sample.net (trace w ++ cleared)
                       (batch_request view tokb items)]
            /\ Forall2 adds_line items (batchRequests tokb items))
    /\ (items <> [] -> Forall non_error cleared -> batch <> [])
    /\ (forall exb, batch = [exb] -> partial_failure exb ->
          exists g, gets = [g] /\ forall c, fetched g c -> cart (rstate w') = c).
Proof.
  exact (batchAdd_sends_one_batch Sample.net Sample.stringify (rstate Sample.fresh)
           [Sample.order_line 7 2; Sample.order_line 5 1] Sample.fresh _ _
           eq_refl (surjective_pairing _)).
Defined.

(** C7, counterexample. The service is down: [setItemQuantity] sends its
    request once, the failure is caught inside [performBasketUpdate], and the
    call returns normally. *)
Lemma offline_failure_is_swallowed :
  ~ failure_is_thrown Sample.offline Sample.stringify Sample.stringify_business
      (rstate Sample.fresh) 42 1 Sample.fresh.
Proof.
  intros H.
  set (post := build_request (rstate Sample.fresh) (Some "tok-1") "/cart/add-item"
                 store "POST" (Some (PAddItem "42" 1)) ∅ None).
  destruct (H (exchange Sample.offline [] post) []) as (e & He).
  - vm_compute. reflexivity.
  - intros (r & Hr & _). discriminate Hr.
  - vm_compute in He. discriminate He.
Qed.

Lemma failures_are_caught_by_the_engine_witness :
  fst (sendWooCommerceCartUpdate Sample.offline Sample.stringify (rstate Sample.fresh)
         "/cart/add-item" "POST" (Some (PAddItem "42" 1)) Sample.fresh)
  = Thrown NetworkError
  /\ (fst (performBasketUpdate Sample.offline Sample.stringify (rstate Sample.fresh) 42 1
             Sample.fresh) = Returned tt
      /\ cart (rstate (snd (performBasketUpdate Sample.offline Sample.stringify
                              (rstate Sample.fresh) 42 1 Sample.fresh)))
         = cart (rstate Sample.fresh))
  /\ exists batch gets,
      trace (snd (reorderItems Sample.net Sample.stringify (rstate Sample.fresh)
                    [Sample.order_line 5 1] Sample.fresh))
      = (trace Sample.fresh
         ++ [exchange Sample.net (trace Sample.fresh)
               (clear_request (rstate Sample.fresh) (Some "tok-1"))]
         ++ batch ++ gets)%list.
Proof.
  destruct (failures_are_caught_by_the_engine Sample.offline Sample.stringify)
    as (Service & Engine & _).
  destruct (failures_are_caught_by_the_engine Sample.net Sample.stringify)
    as (_ & _ & Batch).
  split_and!.
  - apply (Service _ _ _ _ _ _ _ (surjective_pairing _)). reflexivity.
  - refine (proj1 (Engine _ _ _ _
                     {| endpoint := "/cart/add-item"; payload := PAddItem "42" 1;
                        method := "POST" |} _ _ (surjective_pairing _) _ _ _)).
    + reflexivity.
    + done.
    + intros (r & Hr & _). discriminate Hr.
  - refine (proj1 (proj2 (proj2 (Engine _ _ _ _
                     {| endpoint := "/cart/add-item"; payload := PAddItem "42" 1;
                        method := "POST" |} _ _ (surjective_pairing _) _ _ _)))).
    + reflexivity.
    + done.
    + intros (r & Hr & _). discriminate Hr.
  - destruct (Batch (rstate Sample.fresh) [Sample.order_line 5 1] Sample.fresh _ _
                eq_refl (surjective_pairing _)) as (batch & gets & T & _).
    exists batch, gets. exact T.
Defined.




(** C4, the failing input. From the empty basket of the pizzeria, with no
    origin recorded, re-ordering one line of two units fills the cart and
    leaves the origin unset, where the same add through [setItemQuantity]
    records the pizzeria. *)
Theorem reorder_fills_cart_without_origin :
  let reordered :=
    snd (call (fun v => reorderItems Sample.net Sample.stringify v [Sample.order_line 7 2])
           Sample.fresh) in
  let added :=
    snd (call (fun v => updateBasket Sample.net Sample.stringify Sample.stringify_business
                          v 7 2) Sample.fresh) in
  (itemCount (rstate Sample.fresh) = 0 /\ originBusiness (rstate Sample.fresh) = None)
  /\ (itemCount (rstate reordered) = 2 /\ originBusiness (rstate reordered) = None)
  /\ (itemCount (rstate added) = 2
      /\ originBusiness (rstate added) = Some Sample.pizzeria).
Proof. vm_compute. split_and!; reflexivity. Qed.


(** * Further properties of the code *)

(** ** The URL and the headers of a request *)

Lemma append_cons a (s t : string) : String a s ++ t = String a (s ++ t).
Proof. reflexivity. Qed.

Lemma append_assoc (s1 s2 s3 : string) : (s1 ++ s2) ++ s3 = s1 ++ s2 ++ s3.
Proof.
  induction s1 as [|a s1 IH]; [reflexivity|].
  by rewrite !append_cons, IH.
Qed.

Lemma rev_app_append s acc : String.rev_app s acc = String.rev_app s "" ++ acc.
Proof.
  revert acc. induction s as [|a s IH]; intros acc; [reflexivity|].
  cbn [String.rev_app]. rewrite (IH (String a acc)), (IH (String a "")).
  by rewrite append_assoc.
Qed.

Lemma rev_append s p : String.rev (s ++ p) = String.rev p ++ String.rev s.
Proof.
  unfold String.rev. rewrite <- rev_app_append.
  generalize "". induction s as [|a s IH]; intros acc; [reflexivity|].
  rewrite append_cons. cbn [String.rev_app]. apply IH.
Qed.

Lemma prefix_append p s : String.prefix p (p ++ s) = true.
Proof.
  induction p as [|a p IH]; [by destruct s|].
  rewrite append_cons. cbn [String.prefix]. by destruct (Ascii.ascii_dec a a).
Qed.

Lemma endsWith_append s p : endsWith (s ++ p) p = true.
Proof. unfold endsWith. rewrite rev_append. apply prefix_append. Qed.

Lemma baseUrl_ends_in_wp_json view endpoint apiType :
  endsWith (baseUrl view endpoint apiType) "/wp-json/" = true.
Proof.
  unfold baseUrl.
  destruct (String.eqb endpoint "/businesses" || bool_decide (apiType = auth)); [done|].
  destruct (activeBusiness view) as [b|]; [|done].
  destruct (negb (String.eqb (home_url b) "")); [|done].
  destruct (endsWith (home_url b) "/") eqn:E; [|apply endsWith_append].
  unfold endsWith in *. rewrite rev_append.
  destruct (String.rev (home_url b)) as [|a x]; [done|].
  cbn [String.rev String.rev_app String.prefix] in E.
  destruct (Ascii.ascii_dec _ a) as [<-|]; [|done].
  vm_compute. by destruct x.
Qed.

Lemma slashed_normal endpoint : slashed endpoint = "/" ++ without_leading_slash endpoint.
Proof.
  unfold slashed, without_leading_slash, startsWith.
  destruct endpoint as [|a e]; [done|]. cbn [String.prefix].
  destruct (Ascii.ascii_dec _ a) as [<-|]; [|done].
  by destruct e.
Qed.

(** X1. The URL of every request is the base URL, the namespace of the API
    type, one slash and the endpoint, whether or not the endpoint was written
    with a leading slash.  The base URL always ends in [/wp-json/]: a
    [home_url] with or without a trailing slash gives the same base.  The
    [/businesses] endpoint and every [auth] request go to the platform,
    whatever business is active.  An [auth] request has no namespace, so
    its URL has a doubled slash after [wp-json]. *)
Theorem request_url_shape view tok endpoint apiType method body hdrs ov :
  url (build_request view tok endpoint apiType method body hdrs ov)
  = baseUrl view endpoint apiType ++ api_namespace apiType ++ "/"
      ++ without_leading_slash endpoint
  /\ endsWith (baseUrl view endpoint apiType) "/wp-json/" = true
  /\ baseUrl view "/businesses" apiType = PLATFORM_BASE_URL
  /\ baseUrl view endpoint auth = PLATFORM_BASE_URL
  /\ url (build_request view tok endpoint auth method body hdrs ov)
     = "https://foodapp1.wpenginepowered.com/wp-json//" ++ without_leading_slash endpoint
  /\ forall b h, activeBusiness view = Some b -> h <> "" ->
       (home_url b = h \/ home_url b = h ++ "/") -> endsWith h "/" = false ->
       endpoint <> "/businesses" -> apiType <> auth ->
       baseUrl view endpoint apiType = h ++ "/wp-json/".
Proof.
  split_and!.
  - unfold build_request, fullEndpoint. cbn [url]. rewrite slashed_normal.
    by destruct apiType.
  - apply baseUrl_ends_in_wp_json.
  - done.
  - unfold baseUrl. by rewrite orb_true_r.
  - unfold build_request, fullEndpoint, baseUrl. cbn [url]. rewrite slashed_normal.
    by rewrite orb_true_r.
  - intros b h Hb Hh Hu Hs He Ha. unfold baseUrl. rewrite Hb.
    apply String.eqb_neq in He. rewrite He. rewrite bool_decide_eq_false_2 by done.
    simpl. destruct Hu as [-> | ->].
    + apply String.eqb_neq in Hh. by rewrite Hh, Hs.
    + rewrite endsWith_append.
      assert (h ++ "/" <> "") as Hne by (by destruct h).
      apply String.eqb_neq in Hne. rewrite Hne. simpl.
      by rewrite append_assoc.
Qed.

Lemma request_url_shape_witness :
  baseUrl (rstate Sample.fresh) "/cart" store = "https://pizzeria.example/wp-json/"
  /\ baseUrl (Sample.state_of VNull None (Some Sample.noodle_bar) None) "/cart" store
     = "https://noodles.example/wp-json/".
Proof.
  split.
  - apply (proj2 (proj2 (proj2 (proj2 (proj2
             (request_url_shape (rstate Sample.fresh) None "/cart" store "GET" None ∅ None)))))
             Sample.pizzeria "https://pizzeria.example"); try done.
    by left.
  - apply (proj2 (proj2 (proj2 (proj2 (proj2
             (request_url_shape (Sample.state_of VNull None (Some Sample.noodle_bar) None)
                None "/cart" store "GET" None ∅ None)))))
             Sample.noodle_bar "https://noodles.example"); try done.
    by right.
Defined.

Lemma headers_lookup_other (hdrs : gmap string string) k :
  k <> "Content-Type" ->
  (hdrs ∪ {[ "Content-Type" := "application/json" ]}) !! k = hdrs !! k.
Proof. intros Hk. rewrite lookup_union_l; [done|]. by apply lookup_singleton_ne. Qed.

(** X2. Which credentials a request carries.  A Store API request always has
    an [Authorization] header, [Bearer null] when no customer token is known;
    a WooCommerce or custom request has one only when a token is known; an
    [auth] or [wordpress] request gets none.  The token passed by the caller,
    even [null], replaces the one of the context.  The cart token is attached
    to Store API requests only, and only when one is held.  [Content-Type]
    is [application/json] unless the caller sets it. *)
Theorem request_credentials view tok endpoint apiType method body hdrs ov :
  let h := headers (build_request view tok endpoint apiType method body hdrs ov) in
  let customer := match ov with Some t => t | None => authToken view end in
  h !! "Authorization"
  = match apiType with
    | store => Some (bearer customer)
    | woocommerce | custom =>
        if truthy_str customer then Some (bearer customer) else hdrs !! "Authorization"
    | auth | wordpress => hdrs !! "Authorization"
    end
  /\ h !! "Cart-Token"
     = (if bool_decide (apiType = store) && truthy_str tok then tok
        else hdrs !! "Cart-Token")
  /\ h !! "Content-Type" = Some (default "application/json" (hdrs !! "Content-Type"))
  /\ (apiType = store -> ov = None -> authToken view = None ->
      h !! "Authorization" = Some "Bearer null").
Proof.
  intros h customer. subst h. unfold build_request, config_headers. cbn [headers].
  change (customerAuthToken view ov) with customer.
  assert (forall m : gmap string string,
             m = hdrs ∪ {[ "Content-Type" := "application/json" ]} ->
             m !! "Content-Type" = Some (default "application/json" (hdrs !! "Content-Type")))
    as Hct.
  { intros m ->. rewrite lookup_union, lookup_singleton_eq.
    by destruct (hdrs !! "Content-Type"). }
  split_and!.
  - destruct apiType; try destruct (truthy_str customer);
      rewrite ?lookup_insert_eq, ?headers_lookup_other; done.
  - destruct apiType; simpl; try destruct (truthy_str customer);
      rewrite ?(lookup_insert_ne _ "Authorization") by done;
      rewrite ?headers_lookup_other by done; try done.
    all: destruct tok as [t|]; [|by rewrite headers_lookup_other].
    all: unfold truthy_str; destruct (String.eqb t ""); cbn [negb];
      rewrite ?lookup_insert_eq, ?headers_lookup_other; done.
  - destruct apiType; try destruct (truthy_str customer);
      rewrite ?(lookup_insert_ne _ "Authorization") by done; try by apply Hct.
    all: destruct tok as [t|]; [|by apply Hct].
    all: unfold truthy_str; destruct (String.eqb t ""); cbn [negb];
      rewrite ?(lookup_insert_ne _ "Cart-Token") by done; by apply Hct.
  - intros -> -> Hnone. subst customer. rewrite Hnone.
    by rewrite lookup_insert_eq.
Qed.

Lemma request_credentials_witness :
  headers (build_request (rstate Sample.fresh) (Some "tok-1") "/cart" store "GET" None ∅ None)
    !! "Authorization" = Some "Bearer null".
Proof.
  apply (proj2 (proj2 (proj2
           (request_credentials (rstate Sample.fresh) (Some "tok-1") "/cart" store "GET"
              None ∅ None)))); reflexivity.
Defined.

(** ** What the handlers keep *)

Lemma keeps_ret {A} (I : World -> Prop) (a : A) : keeps I (ret a).
Proof. by intros w. Qed.

Lemma keeps_throw {A} (I : World -> Prop) e : keeps I (@throw A e).
Proof. by intros w. Qed.

Lemma keeps_bind {A B} (I : World -> Prop) (m : Async A) (k : A -> Async B) :
  keeps I m -> (forall a, keeps I (k a)) -> keeps I (bind m k).
Proof.
  intros Hm Hk w Hw. specialize (Hm w Hw). unfold bind.
  destruct (m w) as [[a|e] w1]; [by apply Hk | done].
Qed.

Lemma keeps_try_catch {A} (I : World -> Prop) (m : Async A) h :
  keeps I m -> (forall e, keeps I (h e)) -> keeps I (try_catch m h).
Proof.
  intros Hm Hh w Hw. specialize (Hm w Hw). unfold try_catch.
  destruct (m w) as [[a|e] w1]; [done | by apply Hh].
Qed.

Lemma keeps_try_finally {A} (I : World -> Prop) (m : Async A) f :
  keeps I m -> keeps I f -> keeps I (try_finally m f).
Proof.
  intros Hm Hf w Hw. specialize (Hm w Hw). unfold try_finally.
  destruct (m w) as [r w1]. specialize (Hf w1 Hm).
  by destruct (f w1) as [[u|e] w2].
Qed.

Lemma keeps_read_refs (I : World -> Prop) : keeps I read_refs.
Proof. by intros w. Qed.

Section RequestFrame.

Variable net : list Exchange -> Request -> FetchOutcome.
Variable JSON_stringify : JsVal -> string.

Lemma updateShippingMethod_props view package_id rate_id w res w' :
  updateShippingMethod net JSON_stringify view package_id rate_id w = (res, w') ->
  api_call net JSON_stringify view "/cart/select-shipping-rate" store "POST"
    (Some (PShippingRate package_id rate_id)) ∅ None w res w'.
Proof.
  intros H. apply rethrow_props in H as (w1 & H & E1 & E2 & E3 & E4 & E5).
  apply request_props in H. eauto using api_call_console.
Qed.

(** An invariant that every HTTP call keeps is kept by each helper. *)
Variable I : World -> Prop.
Hypothesis I_api :
  forall view endpoint apiType method body hdrs ov w res w',
    api_call net JSON_stringify view endpoint apiType method body hdrs ov w res w' ->
    I w -> I w'.

Lemma keeps_request view endpoint apiType method body hdrs ov :
  keeps I (request net JSON_stringify view endpoint apiType method body hdrs ov).
Proof.
  intros w Hw. destruct (request _ _ _ _ _ _ _ _ _ w) as [res w'] eqn:H.
  apply request_props in H. eauto.
Qed.

Lemma keeps_getWooCommerceCart view : keeps I (getWooCommerceCart net JSON_stringify view).
Proof.
  intros w Hw. destruct (getWooCommerceCart _ _ _ w) as [res w'] eqn:H.
  apply getWooCommerceCart_props in H. eauto.
Qed.

Lemma keeps_sendWooCommerceCartUpdate view endpoint method data :
  keeps I (sendWooCommerceCartUpdate net JSON_stringify view endpoint method data).
Proof.
  intros w Hw. destruct (sendWooCommerceCartUpdate _ _ _ _ _ _ w) as [res w'] eqn:H.
  apply sendWooCommerceCartUpdate_props in H. eauto.
Qed.

Lemma keeps_sendWooCommerceCartBatch view payload :
  keeps I (sendWooCommerceCartBatch net JSON_stringify view payload).
Proof.
  intros w Hw. destruct (sendWooCommerceCartBatch _ _ _ _ w) as [res w'] eqn:H.
  apply sendWooCommerceCartBatch_props in H. eauto.
Qed.

Lemma keeps_updateShippingMethod view package_id rate_id :
  keeps I (updateShippingMethod net JSON_stringify view package_id rate_id).
Proof.
  intros w Hw. destruct (updateShippingMethod _ _ _ _ _ w) as [res w'] eqn:H.
  apply updateShippingMethod_props in H. eauto.
Qed.

Lemma keeps_clearCart view : keeps I (clearCart net JSON_stringify view).
Proof.
  intros w Hw. destruct (clearCart _ _ _ w) as [res w'] eqn:H.
  apply clearCart_props in H. destruct (truthy_str _); [eauto|].
  by destruct H as [_ ->].
Qed.

End RequestFrame.

Arguments updateShippingMethod : simpl never.

(** One step of a proof that a handler keeps an invariant; [prim] proves it
    for the state writes and the HTTP helpers. *)
Ltac keeps_step prim :=
  first
    [ apply keeps_ret
    | apply keeps_throw
    | apply keeps_read_refs
    | prim
    | apply keeps_bind; [|intros ?]
    | apply keeps_try_catch; [|intros ?]
    | apply keeps_try_finally
    | match goal with
      | |- keeps _ (if ?b then _ else _) => destruct b
      | |- keeps _ (match ?x with _ => _ end) => destruct x
      end ].

Lemma keeps_failedRequests (I : World -> Prop) v : keeps I (failedRequests v).
Proof.
  intros w Hw. destruct (failedRequests v w) eqn:E.
  by apply failedRequests_world in E as ->.
Qed.

(** The basket handlers keep every invariant that the HTTP calls, the
    writes to the other state variables, the console and the two writes of
    the origin keep. *)
Section HandlersKeep.

Variable net : list Exchange -> Request -> FetchOutcome.
Variable JSON_stringify : JsVal -> string.
Variable JSON_stringify_business : Business -> string.
Variable SHIPPING_PACKAGE_ID : Z.

Variable I : World -> Prop.

Hypothesis I_api :
  forall view endpoint apiType method body hdrs ov w res w',
    api_call net JSON_stringify view endpoint apiType method body hdrs ov w res w' ->
    I w -> I w'.
Hypothesis I_state :
  forall f,
    (forall s, originBusiness (f s) = originBusiness s /\ cartToken (f s) = cartToken s) ->
    keeps I (modify f).
Hypothesis I_console : forall e, keeps I (console_error e).
Hypothesis I_record : forall view, keeps I (record_origin JSON_stringify_business view).
Hypothesis I_clear :
  keeps I (setOriginBusiness None >>; AsyncStorage_removeItem ORIGIN_STORAGE).

Ltac prim :=
  first
    [ apply I_clear
    | apply I_record
    | apply I_console
    | apply keeps_failedRequests
    | apply I_state; done
    | apply keeps_getWooCommerceCart; apply I_api
    | apply keeps_sendWooCommerceCartUpdate; apply I_api
    | apply keeps_sendWooCommerceCartBatch; apply I_api
    | apply keeps_updateShippingMethod; apply I_api
    | apply keeps_clearCart; apply I_api ].

Lemma kept_by_performBasketUpdate view itemId newQuantity :
  keeps I (performBasketUpdate net JSON_stringify view itemId newQuantity).
Proof. unfold performBasketUpdate. repeat keeps_step prim. Qed.

Lemma kept_by_updateBasket view itemId newQuantity :
  keeps I (updateBasket net JSON_stringify JSON_stringify_business view itemId newQuantity).
Proof.
  unfold updateBasket.
  repeat first [apply kept_by_performBasketUpdate | keeps_step prim].
Qed.

Lemma kept_by_handleClearAndAdd view :
  keeps I (handleClearAndAdd net JSON_stringify JSON_stringify_business view).
Proof.
  unfold handleClearAndAdd.
  repeat first [apply kept_by_performBasketUpdate | keeps_step prim].
Qed.


Lemma kept_by_reorderItems view items :
  keeps I (reorderItems net JSON_stringify view items).
Proof. unfold reorderItems. repeat keeps_step prim. Qed.

Lemma kept_by_syncCart view endpoint method payload :
  keeps I (syncCart net JSON_stringify SHIPPING_PACKAGE_ID view endpoint method payload).
Proof. unfold syncCart. repeat keeps_step prim. Qed.

End HandlersKeep.

Section OriginKept.

Variable net : list Exchange -> Request -> FetchOutcome.
Variable JSON_stringify : JsVal -> string.
Variable JSON_stringify_business : Business -> string.
Variable JSON_parse_business : string -> option (option Business).
Variable SHIPPING_PACKAGE_ID : Z.

Lemma origin_api view endpoint apiType method body hdrs ov w res w' :
  api_call net JSON_stringify view endpoint apiType method body hdrs ov w res w' ->
  origin_persisted JSON_stringify_business w ->
  origin_persisted JSON_stringify_business w'.
Proof.
  intros (_ & _ & F & _). unfold origin_persisted.
  by rewrite (frame_origin_storage _ _ F), (frame_originBusiness _ _ F).
Qed.

Lemma origin_state f :
  (forall s, originBusiness (f s) = originBusiness s /\ cartToken (f s) = cartToken s) ->
  keeps (origin_persisted JSON_stringify_business) (modify f).
Proof.
  intros Hf w Hw. unfold origin_persisted in *. simpl. by rewrite (proj1 (Hf _)).
Qed.

Lemma origin_console e : keeps (origin_persisted JSON_stringify_business) (console_error e).
Proof. by intros w. Qed.


Lemma origin_clear :
  keeps (origin_persisted JSON_stringify_business)
    (setOriginBusiness None >>; AsyncStorage_removeItem ORIGIN_STORAGE).
Proof. intros w _. unfold origin_persisted. simpl. by rewrite lookup_delete_eq. Qed.


Lemma origin_performBasketUpdate view itemId newQuantity :
  keeps (origin_persisted JSON_stringify_business)
    (performBasketUpdate net JSON_stringify view itemId newQuantity).
Proof.
  apply kept_by_performBasketUpdate;
    first [ apply origin_api | apply origin_state | apply origin_console
          | apply origin_clear ].
Qed.



End OriginKept.



(** ** The cart token *)

Section TokenKept.

Variable net : list Exchange -> Request -> FetchOutcome.
Variable JSON_stringify : JsVal -> string.
Variable JSON_stringify_business : Business -> string.
Variable SHIPPING_PACKAGE_ID : Z.

Lemma token_api view endpoint apiType method body hdrs ov w res w' :
  api_call net JSON_stringify view endpoint apiType method body hdrs ov w res w' ->
  token_persisted w -> token_persisted w'.
Proof.
  intros (_ & _ & _ & K & S & _) Hw. unfold token_persisted in *.
  rewrite K, S. by destruct (rotates _ _).
Qed.

Lemma token_state f :
  (forall s, originBusiness (f s) = originBusiness s /\ cartToken (f s) = cartToken s) ->
  keeps token_persisted (modify f).
Proof.
  intros Hf w Hw. unfold token_persisted in *. simpl. by rewrite (proj2 (Hf _)).
Qed.

Lemma token_console e : keeps token_persisted (console_error e).
Proof. by intros w. Qed.

Lemma token_record view :
  keeps token_persisted (record_origin JSON_stringify_business view).
Proof.
  intros w Hw. unfold record_origin. destruct (activeBusiness view) as [b|]; [|done].
  unfold token_persisted in *. simpl. by rewrite lookup_insert_ne.
Qed.

Lemma token_clear :
  keeps token_persisted (setOriginBusiness None >>; AsyncStorage_removeItem ORIGIN_STORAGE).
Proof.
  intros w Hw. unfold token_persisted in *. simpl. by rewrite lookup_delete_ne.
Qed.

Lemma token_saveCartToken_null : keeps token_persisted (saveCartToken None).
Proof. intros w _. unfold token_persisted. simpl. by rewrite lookup_delete_eq. Qed.

Lemma token_createOrder view payload :
  keeps token_persisted (createOrder net JSON_stringify view payload).
Proof.
  unfold createOrder.
  repeat keeps_step
    ltac:(first [ apply token_console
                | apply token_saveCartToken_null
                | apply keeps_request; apply token_api ]).
Qed.

(** X5. The cart token in memory and its copy in AsyncStorage stay in
    agreement through every request and every basket handler: a new token is
    written to both, checkout clears both, and nothing else touches either.
    So the token a restarted application loads is the one last held. *)
Theorem cart_token_stays_persisted view w :
  token_persisted w ->
  (forall endpoint apiType method body hdrs ov,
      token_persisted
        (snd (request net JSON_stringify view endpoint apiType method body hdrs ov w)))
  /\ (forall payload,
        token_persisted (snd (createOrder net JSON_stringify view payload w)))
  /\ (forall itemId newQuantity,
        token_persisted
          (snd (updateBasket net JSON_stringify JSON_stringify_business view
                  itemId newQuantity w)))
  /\ token_persisted
       (snd (handleClearAndAdd net JSON_stringify JSON_stringify_business view w))
  /\ (forall items, token_persisted (snd (reorderItems net JSON_stringify view items w)))
  /\ (forall endpoint method payload,
        token_persisted
          (snd (syncCart net JSON_stringify SHIPPING_PACKAGE_ID view endpoint method
                  payload w)))
  /\ fst (loadCartToken (started (storage w))) = Returned (cartToken (rstate w)).
Proof.
  intros Hw.
  pose proof token_api as A. pose proof token_state as S.
  pose proof token_console as C. pose proof token_record as R.
  pose proof token_clear as D.
  split_and!.
  - intros endpoint apiType method body hdrs ov. by apply keeps_request.
  - intros payload. by apply token_createOrder.
  - intros itemId newQuantity. by apply kept_by_updateBasket.
  - by apply kept_by_handleClearAndAdd.
  - intros items. by apply kept_by_reorderItems.
  - intros endpoint method payload. by apply kept_by_syncCart.
  - unfold loadCartToken, try_catch, bind, AsyncStorage_getItem. simpl. by rewrite Hw.
Qed.


(** X7. [refreshCart] sends one [GET /cart], which still carries the token
    the ref holds: the reset of the state variable is not visible to the
    request.  Afterwards the token in memory is the one the response brought
    if it differs from the ref's, and [null] otherwise, while the stored
    token is only ever replaced, never removed.  The local cart is the
    fetched value; when the fetch fails the cart is left [null] and the
    error reaches the caller. *)
Theorem refreshCart_forgets_token_in_memory view w :
  let run := refreshCart net JSON_stringify view w in
  let tok := cartTokenRef (refs w) in
  let g := exchange net (trace w) (get_cart_request view tok) in
  trace (snd run) = (trace w ++ [g])%list
  /\ cartToken (rstate (snd run))
     = (if rotates tok (ex_outcome g) then new_token (ex_outcome g) else None)
  /\ storage (snd run) !! CART_TOKEN_STORAGE
     = (if rotates tok (ex_outcome g) then new_token (ex_outcome g)
        else storage w !! CART_TOKEN_STORAGE)
  /\ match response_result JSON_stringify "GET" (ex_outcome g) with
     | Returned c => fst run = Returned tt /\ cart (rstate (snd run)) = c
     | Thrown e => fst run = Thrown e /\ cart (rstate (snd run)) = VNull
     end.
Proof.
  intros run tok g. subst run tok g.
  destruct (refreshCart net JSON_stringify view w) as [res w'] eqn:H. cbn [fst snd].
  unfold refreshCart in H.
  unfold bind at 1 2, setCart at 1, _setCartToken, modify in H.
  unfold bind in H.
  destruct (getWooCommerceCart _ _ _ _) as [[c|e] w1] eqn:E.
  all: apply getWooCommerceCart_props in E as (T & R & F & K & S & _).
  all: unfold exchange, get_cart_request; cbn [ex_outcome].
  all: simpl in T, R, K, S; rewrite <- R.
  all: unfold setCart, modify in H; injection H as <- <-; simpl.
  all: split_and!; try done.
  apply frame_cart in F. by rewrite F.
Qed.

End TokenKept.

Lemma cart_token_stays_persisted_witness :
  token_persisted
    (snd (updateBasket Sample.net Sample.stringify Sample.stringify_business
            (rstate Sample.tokenless) 42 1 Sample.tokenless))
  /\ fst (loadCartToken (started (storage Sample.stocked))) = Returned (Some "tok-1").
Proof.
  split.
  - apply (proj1 (proj2 (proj2 (cart_token_stays_persisted Sample.net Sample.stringify
                                  Sample.stringify_business 0 (rstate Sample.tokenless)
                                  Sample.tokenless eq_refl)))).
  - apply (proj2 (proj2 (proj2 (proj2 (proj2 (proj2
             (cart_token_stays_persisted Sample.net Sample.stringify
                Sample.stringify_business 0 (rstate Sample.stocked) Sample.stocked
                eq_refl))))))).
Defined.

(** ** The busy flag *)

Section BusyFlag.

Variable net : list Exchange -> Request -> FetchOutcome.
Variable JSON_stringify : JsVal -> string.
Variable JSON_stringify_business : Business -> string.



Lemma performBasketUpdate_jams view itemId newQuantity w :
  ~ cart_or_nullish (cartRef (refs w)) ->
  performBasketUpdate net JSON_stringify view itemId newQuantity w
  = (Thrown TypeError, with_rstate (set_isSyncing true) w).
Proof.
  intros Hc. unfold performBasketUpdate, bind, setIsSyncing, modify, read_refs.
  simpl. by destruct (cartRef (refs w)).
Qed.


(** X9. A cart state that is neither a cart nor [null] jams the basket.
    [getCartUpdateEndpoint] is called before the [try] block, so its
    [TypeError] leaves [performBasketUpdate] with the busy flag up and no
    request sent; from the next render on every [updateBasket] and
    [reorderItems] is rejected by the busy check. *)
Theorem malformed_cart_jams_the_basket itemId newQuantity w :
  settled w -> isSyncing (rstate w) = false ->
  ~ cart_or_nullish (cart (rstate w)) ->
  let run :=
    call (fun v => updateBasket net JSON_stringify JSON_stringify_business v
                     itemId newQuantity) w in
  fst run = Thrown TypeError
  /\ trace (snd run) = trace w
  /\ isSyncing (rstate (snd run)) = true
  /\ (forall itemId' newQuantity' w',
        updateBasket net JSON_stringify JSON_stringify_business (rstate (snd run))
          itemId' newQuantity' w' = (Returned tt, w'))
  /\ (forall items w',
        reorderItems net JSON_stringify (rstate (snd run)) items w' = (Returned tt, w')).
Proof.
  intros Hw Hs Hc run.
  assert (fst run = Thrown TypeError /\ trace (snd run) = trace w
          /\ isSyncing (rstate (snd run)) = true) as (H1 & H2 & H3).
  { subst run. unfold call. set (view := rstate w) in *.
    assert (itemCount view = 0) as Hn.
    { unfold itemCount. by destruct (cart view). }
    rewrite updateBasket_proceeds; [|done|by rewrite Hn, andb_false_r].
    destruct (before_update_settled JSON_stringify_business view newQuantity w Hw eq_refl)
      as (E1 & E2 & _).
    rewrite performBasketUpdate_jams.
    - done.
    - rewrite E1. by destruct (settled_refs w Hw) as [_ ->]. }
  split_and!; try done.
  - intros itemId' newQuantity' w'. unfold updateBasket. by rewrite H3.
  - intros items w'. unfold reorderItems. by rewrite H3.
Qed.

End BusyFlag.


Lemma malformed_cart_jams_the_basket_witness :
  fst (call (fun v => updateBasket Sample.net Sample.stringify Sample.stringify_business
                        v 42 1) Scenario.malformed) = Thrown TypeError
  /\ isSyncing (rstate (snd (call (fun v => updateBasket Sample.net Sample.stringify
                                             Sample.stringify_business v 42 1)
                               Scenario.malformed))) = true.
Proof.
  destruct (malformed_cart_jams_the_basket Sample.net Sample.stringify
              Sample.stringify_business 42 1 Scenario.malformed)
    as (H1 & _ & H3 & _).
  - reflexivity.
  - reflexivity.
  - simpl. tauto.
  - split; [exact H1 | exact H3].
Defined.

(** ** The callers of [updateBasket] *)

Section Callers.

Variable net : list Exchange -> Request -> FetchOutcome.
Variable JSON_stringify : JsVal -> string.
Variable JSON_stringify_business : Business -> string.

(** What [updateBasket] sends first when it goes ahead from a settled
    render whose cart is [c]. *)
Lemma updateBasket_first_request w c itemId newQuantity p :
  settled w -> isSyncing (rstate w) = false -> cart (rstate w) = VCart c ->
  (newQuantity >? 0) && (itemCount (rstate w) >? 0) && origin_differs (rstate w) = false ->
  getCartUpdateEndpoint itemId newQuantity (VCart c) = Some p ->
  endpoint p <> "" ->
  let view := rstate w in
  exists rest,
    trace (snd (updateBasket net JSON_stringify JSON_stringify_business view
                  itemId newQuantity w))
    = (trace w
       ++ exchange net (trace w)
            (build_request view (cartTokenRef (refs w)) (endpoint p) store (method p)
               (Some (payload p)) ∅ None)
       :: rest)%list
    /\ (rest = [] \/ exists tok h, rest = [exchange net h (get_cart_request view tok)]).
Proof.
  intros Hw Hs Hc Hg Hp He view. subst view.
  rewrite updateBasket_proceeds by done.
  destruct (before_update_settled JSON_stringify_business (rstate w) newQuantity w Hw
              eq_refl) as (E1 & E2 & _).
  destruct (performBasketUpdate _ _ _ _ _ _) as [res w'] eqn:H. cbn [snd].
  assert (getCartUpdateEndpoint itemId newQuantity
            (cartRef (refs (before_update JSON_stringify_business (rstate w)
                              newQuantity w))) = Some p) as Hp'.
  { rewrite E1. destruct (settled_refs w Hw) as [_ ->]. by rewrite Hc. }
  destruct (performBasketUpdate_run net JSON_stringify _ _ _ _ _ _ _ H Hp' He)
    as (_ & _ & _ & _ & Hrun).
  rewrite E1, E2 in Hrun.
  destruct (response_result _ _ _) as [v|e]; [destruct (truthy v || _)|].
  - destruct Hrun as (tok2 & Ht & _). eexists. split; [exact Ht|]. right. eauto.
  - destruct Hrun as (Ht & _). exists []. split; [exact Ht | by left].
  - destruct Hrun as (Ht & _). exists []. split; [exact Ht | by left].
Qed.

Lemma find_item_unique item l :
  item ∈ l -> NoDup (List.map li_id l) -> find_item (li_id item) l = Some item.
Proof.
  unfold find_item. induction l as [|x l IH]; [by intros ?%elem_of_nil|].
  intros Hin Hnd. simpl in *. apply NoDup_cons in Hnd as [Hx Hnd].
  destruct (Z.eqb_spec (li_id x) (li_id item)) as [E|E].
  - apply elem_of_cons in Hin as [->|Hin]; [done|].
    destruct Hx. rewrite E. apply list_elem_of_fmap. by exists item.
  - apply elem_of_cons in Hin as [->|Hin]; [done|]. by apply IH.
Qed.

(** X10. Tapping a product on the order screen asks for one more unit of it.
    From a settled, idle render with a cart and no conflict,
    [handleAddOrUpdateItem] sends, for a product that has no line item,
    [POST /cart/add-item] with quantity 1, and for a product that has one
    (of a non-negative quantity), [PUT /cart/items/{key}] with the line's
    quantity plus one; at most one [GET /cart] follows.  With no cart held,
    the quantity it asks for is 1. *)
Theorem tap_adds_one_unit w c productId :
  settled w -> isSyncing (rstate w) = false -> cart (rstate w) = VCart c ->
  (itemCount (rstate w) >? 0) && origin_differs (rstate w) = false ->
  (forall line, find_item productId (items c) = Some line -> 0 <= quantity line) ->
  let view := rstate w in
  let sp := one_more productId c in
  getCartUpdateEndpoint productId (getItemQuantity view productId + 1) (cart view) = Some sp
  /\ (exists rest,
        trace (snd (handleAddOrUpdateItem net JSON_stringify JSON_stringify_business
                      view productId w))
        = (trace w
           ++ exchange net (trace w)
                (build_request view (cartTokenRef (refs w)) (endpoint sp) store
                   (method sp) (Some (payload sp)) ∅ None)
           :: rest)%list
        /\ (rest = [] \/ exists tok h, rest = [exchange net h (get_cart_request view tok)]))
  /\ forall view', cart view' = VNull -> getItemQuantity view' productId + 1 = 1.
Proof.
  intros Hw Hs Hc Hg Hq view sp.
  assert (getCartUpdateEndpoint productId (getItemQuantity view productId + 1) (VCart c)
          = Some sp) as Hp.
  { subst sp. unfold getItemQuantity, one_more, getCartUpdateEndpoint. subst view.
    rewrite Hc. destruct (find_item productId (items c)) as [line|] eqn:E.
    - specialize (Hq line eq_refl).
      destruct (Z.leb_spec (quantity line + 1) 0); [lia | done].
    - done. }
  split_and!.
  - subst view. by rewrite Hc.
  - unfold handleAddOrUpdateItem.
    apply (updateBasket_first_request w c); try done.
    + by rewrite <- andb_assoc, Hg, andb_false_r.
    + subst sp. unfold one_more. by destruct (find_item productId (items c)).
  - intros view' Hn. unfold getItemQuantity. by rewrite Hn.
Qed.

(** X11. The buttons of a basket row.  [handleDecrement] never asks for a
    negative quantity: at a quantity of zero or less it does nothing.  From
    a settled, idle render, on a line of a cart whose lines have distinct
    product ids: minus on a quantity of 1 makes [updateBasket] send
    [DELETE /cart/items/{key}] for the key of that line, whatever origin is
    recorded; plus, when no conflict holds it back, makes it send
    [PUT /cart/items/{key}] with the quantity plus one.  At most one
    [GET /cart] follows. *)
Theorem quantity_selector_updates_the_line w c item :
  settled w -> isSyncing (rstate w) = false -> cart (rstate w) = VCart c ->
  item ∈ items c -> NoDup (List.map li_id (items c)) ->
  let view := rstate w in
  let sent (run : Outcome unit * World) (endpoint method : string) (payload : Payload) :=
    exists rest,
      trace (snd run)
      = (trace w
         ++ exchange net (trace w)
              (build_request view (cartTokenRef (refs w)) endpoint store method
                 (Some payload) ∅ None)
         :: rest)%list
      /\ (rest = [] \/ exists tok h, rest = [exchange net h (get_cart_request view tok)]) in
  (forall q f, q <= 0 -> handleDecrement q f = ret tt)
  /\ (forall q f, 0 < q -> handleDecrement q f = f (q - 1) /\ 0 <= q - 1)
  /\ (quantity item = 1 ->
      sent (handleDecrement (quantity item)
              (onUpdateQuantity net JSON_stringify JSON_stringify_business view item) w)
        ("/cart/items/" ++ key item) "DELETE" PEmpty)
  /\ (0 <= quantity item ->
      (itemCount view >? 0) && origin_differs view = false ->
      sent (handleIncrement (quantity item)
              (onUpdateQuantity net JSON_stringify JSON_stringify_business view item) w)
        ("/cart/items/" ++ key item) "PUT" (PQuantity (quantity item + 1))).
Proof.
  intros Hw Hs Hc Hin Hnd view sent. split_and!.
  - intros q f Hq. unfold handleDecrement.
    destruct (Z.gtb_spec q 0); [lia | done].
  - intros q f Hq. unfold handleDecrement.
    destruct (Z.gtb_spec q 0); [split; [done | lia] | lia].
  - intros H1. rewrite H1. unfold handleDecrement, onUpdateQuantity. simpl.
    apply (updateBasket_first_request w c (li_id item) 0
             {| endpoint := "/cart/items/" ++ key item; payload := PEmpty;
                method := "DELETE" |}); try done.
    unfold getCartUpdateEndpoint. by rewrite (find_item_unique item (items c)).
  - intros Hq Hg. subst sent view. cbv beta in *.
    unfold handleIncrement, onUpdateQuantity.
    apply (updateBasket_first_request w c (li_id item) (quantity item + 1)
             {| endpoint := "/cart/items/" ++ key item;
                payload := PQuantity (quantity item + 1); method := "PUT" |}); try done.
    + by rewrite <- andb_assoc, Hg, andb_false_r.
    + unfold getCartUpdateEndpoint. rewrite (find_item_unique item (items c)) by done.
      destruct (Z.leb_spec (quantity item + 1) 0); [lia | done].
Qed.

End Callers.

Lemma tap_adds_one_unit_witness :
  getCartUpdateEndpoint 42 (getItemQuantity (rstate Sample.stocked) 42 + 1)
    (cart (rstate Sample.stocked))
  = Some {| endpoint := "/cart/items/k42"; payload := PQuantity 2; method := "PUT" |}
  /\ getCartUpdateEndpoint 7 (getItemQuantity (rstate Sample.stocked) 7 + 1)
       (cart (rstate Sample.stocked))
     = Some {| endpoint := "/cart/add-item"; payload := PAddItem "7" 1; method := "POST" |}.
Proof.
  split.
  - refine (proj1 (tap_adds_one_unit Sample.net Sample.stringify Sample.stringify_business
                     Sample.stocked (Sample.cart_of [Sample.line42]) 42 _ _ _ _ _)).
    + reflexivity.
    + reflexivity.
    + reflexivity.
    + reflexivity.
    + intros line [= <-]. done.
  - refine (proj1 (tap_adds_one_unit Sample.net Sample.stringify Sample.stringify_business
                     Sample.stocked (Sample.cart_of [Sample.line42]) 7 _ _ _ _ _)).
    + reflexivity.
    + reflexivity.
    + reflexivity.
    + reflexivity.
    + intros line [=].
Defined.

Lemma quantity_selector_updates_the_line_witness :
  (exists rest,
      trace (snd (handleDecrement (quantity Sample.line42)
                    (onUpdateQuantity Sample.net Sample.stringify
                       Sample.stringify_business (rstate Sample.stocked) Sample.line42)
                    Sample.stocked))
      = (trace Sample.stocked
         ++ exchange Sample.net (trace Sample.stocked)
              (build_request (rstate Sample.stocked) (cartTokenRef (refs Sample.stocked))
                 ("/cart/items/" ++ key Sample.line42) store "DELETE" (Some PEmpty) ∅ None)
         :: rest)%list)
  /\ (exists rest,
        trace (snd (handleIncrement (quantity Sample.line42)
                      (onUpdateQuantity Sample.net Sample.stringify
                         Sample.stringify_business (rstate Sample.stocked) Sample.line42)
                      Sample.stocked))
        = (trace Sample.stocked
           ++ exchange Sample.net (trace Sample.stocked)
                (build_request (rstate Sample.stocked) (cartTokenRef (refs Sample.stocked))
                   ("/cart/items/" ++ key Sample.line42) store "PUT"
                   (Some (PQuantity 2)) ∅ None)
           :: rest)%list).
Proof.
  destruct (quantity_selector_updates_the_line Sample.net Sample.stringify
              Sample.stringify_business Sample.stocked (Sample.cart_of [Sample.line42])
              Sample.line42) as (_ & _ & Minus & Plus).
  - reflexivity.
  - reflexivity.
  - reflexivity.
  - apply list_elem_of_here.
  - repeat constructor. apply not_elem_of_nil.
  - split.
    + destruct (Minus eq_refl) as (rest & Ht & _). by exists rest.
    + destruct Plus as (rest & Ht & _); [done | reflexivity |]. by exists rest.
Defined.

(** ** The service functions of the checkout *)

Section Checkout.

Variable net : list Exchange -> Request -> FetchOutcome.
Variable JSON_stringify : JsVal -> string.

(** X12. [getPaymentGateways] never throws.  It sends one [GET] to
    [foodapp/v1/payment-gateways] under the base URL (the missing slash is
    inserted) and returns the parsed body; a transport failure, an error
    status or a body that is not JSON all yield the empty list, so the
    caller cannot tell a failure from a shop without gateways. *)
Theorem getPaymentGateways_never_throws view w :
  let run := getPaymentGateways net JSON_stringify view w in
  let req := build_request view (cartTokenRef (refs w)) "payment-gateways" custom "GET"
               None ∅ None in
  trace (snd run) = (trace w ++ [exchange net (trace w) req])%list
  /\ url req = baseUrl view "payment-gateways" custom ++ "foodapp/v1/payment-gateways"
  /\ fst run = match response_result JSON_stringify "GET" (net (trace w) req) with
               | Returned v => Returned v
               | Thrown _ => Returned VEmptyArray
               end.
Proof.
  intros run req. subst run.
  destruct (getPaymentGateways net JSON_stringify view w) as [res w'] eqn:H.
  cbn [fst snd]. unfold getPaymentGateways in H.
  apply try_catch_cases in H as [(a & H & ->) | (e & w1 & H & Hc)].
  - apply request_props in H as (T & R & _). simpl in R. fold req in R.
    rewrite <- R. by split_and!.
  - apply request_props in H as (T & R & _). simpl in R. fold req in R.
    rewrite <- R. unfold bind, console_error, ret in Hc. injection Hc as <- <-.
    by split_and!.
Qed.


End Checkout.

(** ** The business provider *)

Section BusinessProvider.

Variable JSON_stringify_business : Business -> string.
Variable JSON_parse_business : string -> option (option Business).

(** X14. The selected business survives a restart: after [setBusiness b],
    [loadPersistedBusiness] run by a freshly started application makes [b]
    the active business again, provided [JSON.parse] reads back what
    [JSON.stringify] wrote; after [clearBusiness] it leaves the active
    business unset.  Unlike [loadOrigin], [loadPersistedBusiness] has no
    [catch]: a stored string that does not parse makes it throw. *)
Theorem selected_business_survives_restart b w :
  JSON_stringify_business b <> "" ->
  JSON_parse_business (JSON_stringify_business b) = Some (Some b) ->
  let selected := snd (setBusiness JSON_stringify_business b w) in
  let cleared := snd (clearBusiness w) in
  activeBusiness (rstate selected) = Some b
  /\ loadPersistedBusiness JSON_parse_business (started (storage selected))
     = (Returned tt,
        with_rstate (set_activeBusiness (Some b)) (commit (started (storage selected))))
  /\ activeBusiness (rstate cleared) = None
  /\ loadPersistedBusiness JSON_parse_business (started (storage cleared))
     = (Returned tt, commit (started (storage cleared)))
  /\ (forall s w0,
        storage w0 !! ACTIVE_BUSINESS_STORAGE = Some s -> s <> "" ->
        JSON_parse_business s = None ->
        fst (loadPersistedBusiness JSON_parse_business w0) = Thrown SyntaxError).
Proof.
  intros Hne Hp selected cleared. split_and!.
  - done.
  - unfold loadPersistedBusiness, bind, AsyncStorage_getItem. cbn [storage started].
    subst selected. simpl. rewrite lookup_insert_eq. simpl.
    apply String.eqb_neq in Hne. by rewrite Hne, Hp.
  - done.
  - unfold loadPersistedBusiness, bind, AsyncStorage_getItem. cbn [storage started].
    subst cleared. simpl. by rewrite lookup_delete_eq.
  - intros s w0 Hs Hs' Hnone. unfold loadPersistedBusiness, bind, AsyncStorage_getItem.
    rewrite Hs. simpl. apply String.eqb_neq in Hs'. by rewrite Hs', Hnone.
Qed.

End BusinessProvider.

Lemma selected_business_survives_restart_witness :
  activeBusiness
    (rstate (snd (loadPersistedBusiness Scenario.parse_business
                    (started (storage (snd (setBusiness Sample.stringify_business
                                              Sample.noodle_bar Sample.fresh)))))))
  = Some Sample.noodle_bar.
Proof.
  destruct (selected_business_survives_restart Sample.stringify_business
              Scenario.parse_business Sample.noodle_bar Sample.fresh)
    as (_ & H & _).
  - done.
  - reflexivity.
  - by rewrite H.
Defined.


(** ** The origin of the basket *)

Section Origin.

Variable net : list Exchange -> Request -> FetchOutcome.
Variable JSON_stringify : JsVal -> string.
Variable JSON_stringify_business : Business -> string.

Lemma positive_quantity_names_a_request itemId newQuantity v p :
  newQuantity > 0 -> getCartUpdateEndpoint itemId newQuantity v = Some p ->
  endpoint p <> "".
Proof.
  intros Hq. destruct v as [| | |c| |]; simpl; try (intros [= <-]; done).
  destruct (find_item itemId (items c)).
  - destruct (newQuantity <=? 0); intros [= <-]; done.
  - destruct (Z.gtb_spec newQuantity 0); [|lia]. intros [= <-]. done.
Qed.

(** X15. The life of the recorded origin in [updateBasket].  (a) When the
    mutation was accepted and the re-fetched cart reports no items, the
    origin is dropped, in memory and, if the stored copy agreed with it, in
    AsyncStorage; when the re-fetched cart reports items the origin is left
    as it was.  (b) The origin is recorded before the first add is sent and
    is not rolled back: when that request fails, the active business stays
    recorded as origin although the cart is still empty. *)
Theorem origin_follows_the_cart :
  (forall view itemId newQuantity w p,
      getCartUpdateEndpoint itemId newQuantity (cartRef (refs w)) = Some p ->
      endpoint p <> "" ->
      let ex1 := exchange net (trace w)
                   (build_request view (cartTokenRef (refs w)) (endpoint p) store
                      (method p) (Some (payload p)) ∅ None) in
      accepted ex1 ->
      let w' := snd (performBasketUpdate net JSON_stringify view itemId newQuantity w) in
      exists ex2,
        trace w' = (trace w ++ [ex1; ex2])%list
        /\ is_get_cart view ex2
        /\ forall c, fetched ex2 (VCart c) ->
             originBusiness (rstate w')
             = (if items_count c =? 0 then None else originBusiness (rstate w))
             /\ (origin_persisted JSON_stringify_business w ->
                 storage w' !! ORIGIN_STORAGE
                 = (if items_count c =? 0 then None else storage w !! ORIGIN_STORAGE)))
  /\ (forall w itemId newQuantity b p,
        settled w -> isSyncing (rstate w) = false ->
        itemCount (rstate w) = 0 -> newQuantity > 0 ->
        activeBusiness (rstate w) = Some b ->
        getCartUpdateEndpoint itemId newQuantity (cart (rstate w)) = Some p ->
        let view := rstate w in
        let ex1 := exchange net (trace w)
                     (build_request view (cartTokenRef (refs w)) (endpoint p) store
                        (method p) (Some (payload p)) ∅ None) in
        ~ non_error ex1 ->
        let w' := snd (updateBasket net JSON_stringify JSON_stringify_business view
                         itemId newQuantity w) in
        trace w' = (trace w ++ [ex1])%list
        /\ originBusiness (rstate w') = Some b
        /\ cart (rstate w') = cart (rstate w)
        /\ itemCount (rstate w') = 0).
Proof.
  split.
  - intros view itemId newQuantity w p Hp He ex1 Hacc w'. subst w'.
    pose proof (origin_performBasketUpdate net JSON_stringify JSON_stringify_business
                  view itemId newQuantity w) as Hkept.
    destruct (performBasketUpdate net JSON_stringify view itemId newQuantity w)
      as [res w'] eqn:H. cbn [snd] in *.
    destruct (performBasketUpdate_run net JSON_stringify _ _ _ _ _ _ _ H Hp He)
      as (_ & _ & _ & _ & Hrun).
    fold ex1 in Hrun.
    destruct (accepted_result JSON_stringify _ Hacc) as (v & Hv & Hgo).
    change (req_method (ex_request ex1)) with (method p) in Hv, Hgo.
    rewrite Hv, Hgo in Hrun. destruct Hrun as (tok2 & Ht & Hget).
    eexists. split; [exact Ht|]. split; [by exists tok2|].
    intros c Hf. apply (fetched_result JSON_stringify) in Hf.
    cbn [ex_outcome exchange] in Hf, Hget. rewrite Hf in Hget.
    destruct Hget as [_ Ho]. simpl in Ho. split; [exact Ho|].
    intros Hw. specialize (Hkept Hw). unfold origin_persisted in Hkept, Hw.
    rewrite Hkept, Ho. destruct (items_count c =? 0); [done | by rewrite Hw].
  - intros w itemId newQuantity b p Hw Hs Hn Hq Hb Hp view ex1 Hne w'. subst w'.
    assert ((newQuantity >? 0) && (itemCount view =? 0) = true) as Hfirst.
    { subst view. rewrite Hn. by destruct (Z.gtb_spec newQuantity 0); [|lia]. }
    rewrite updateBasket_proceeds; [|done|by subst view; rewrite Hn, andb_false_r].
    destruct (before_update_settled JSON_stringify_business view newQuantity w Hw eq_refl)
      as (E1 & E2 & E3 & _ & E5).
    rewrite Hfirst in E5. subst view. rewrite Hb in E5.
    destruct (performBasketUpdate _ _ _ _ _ _) as [res w'] eqn:H. cbn [snd].
    assert (getCartUpdateEndpoint itemId newQuantity
              (cartRef (refs (before_update JSON_stringify_business (rstate w)
                                newQuantity w))) = Some p) as Hp'.
    { rewrite E1. by destruct (settled_refs w Hw) as [_ ->]. }
    destruct (performBasketUpdate_run net JSON_stringify _ _ _ _ _ _ _ H Hp'
                (positive_quantity_names_a_request _ _ _ _ Hq Hp))
      as (_ & _ & _ & _ & Hrun).
    rewrite E1, E2 in Hrun. fold ex1 in Hrun.
    destruct (not_non_error_result JSON_stringify (method p) ex1 Hne) as (e & Hr).
    rewrite Hr in Hrun. destruct Hrun as (T & C & O & _).
    split_and!; [done | congruence | congruence |].
    unfold itemCount in *. by rewrite C, E3.
Qed.

(** X16. Confirming the conflict dialog.  Without a pending item
    [handleClearAndAdd] does nothing at all.  With one, a cart token held,
    and the clear request failing, it sends nothing more: the pending item
    is dropped and the dialog closed, but the cart and the recorded origin
    stay as they were, the error is only logged, and the busy flag is
    lowered. *)
Theorem failed_clear_keeps_the_basket view w :
  (pendingItem view = None ->
   handleClearAndAdd net JSON_stringify JSON_stringify_business view w = (Returned tt, w))
  /\ (forall p,
        pendingItem view = Some p ->
        truthy_str (cartTokenRef (refs w)) = true ->
        let clear := exchange net (trace w) (clear_request view (cartTokenRef (refs w))) in
        ~ non_error clear ->
        let run := handleClearAndAdd net JSON_stringify JSON_stringify_business view w in
        fst run = Returned tt
        /\ trace (snd run) = (trace w ++ [clear])%list
        /\ cart (rstate (snd run)) = cart (rstate w)
        /\ originBusiness (rstate (snd run)) = originBusiness (rstate w)
        /\ pendingItem (rstate (snd run)) = None
        /\ conflictModalVisible (rstate (snd run)) = false
        /\ isSyncing (rstate (snd run)) = false
        /\ exists e l, console (snd run) = (l ++ [e])%list).
Proof.
  split.
  - intros Hp. unfold handleClearAndAdd. by rewrite Hp.
  - intros [item_id item_qty] Hp Htok clear Hne run. subst run.
    destruct (handleClearAndAdd _ _ _ _ w) as [res w'] eqn:H. cbn [fst snd].
    unfold handleClearAndAdd in H. rewrite Hp in H.
    unfold bind at 1 2 3, setPendingItem, setConflictModalVisible, setIsSyncing at 1,
      modify in H.
    apply try_finally_syncing in H as (w2 & H & ->).
    set (w0 := with_rstate _ _) in H.
    assert (exists e w1,
               clearCart net JSON_stringify view w0 = (Thrown e, w1)
               /\ trace w1 = (trace w ++ [clear])%list
               /\ api_frame w0 w1) as (e & w1 & Hclear & T1 & F1).
    { destruct (clearCart net JSON_stringify view w0) as [r1 w1] eqn:E1.
      pose proof E1 as E1'. apply clearCart_props in E1'.
      change (cartTokenRef (refs w0)) with (cartTokenRef (refs w)) in E1'.
      rewrite Htok in E1'. destruct E1' as (T & R & F & _).
      destruct (not_non_error_result JSON_stringify "DELETE" clear Hne) as (e & He).
      exists e, w1. simpl in R. unfold clear, exchange, clear_request in He.
      cbn [ex_outcome] in He. rewrite He in R. subst r1. done. }
    apply try_catch_cases in H as [(a & H & ->) | (e' & wt & H & Hc)].
    + unfold bind at 1 in H. rewrite Hclear in H. discriminate H.
    + unfold bind at 1 in H. rewrite Hclear in H. injection H as <- <-.
      unfold console_error in Hc. injection Hc as <- <-. simpl.
      pose proof (frame_cart _ _ F1) as Fc.
      pose proof (frame_originBusiness _ _ F1) as Fo.
      pose proof (frame_pendingItem _ _ F1) as Fp.
      pose proof (frame_conflictModalVisible _ _ F1) as Fm. simpl in Fc, Fo, Fp, Fm.
      split_and!; eauto.
Qed.

End Origin.

Lemma origin_follows_the_cart_witness :
  originBusiness (rstate (snd (updateBasket Sample.offline Sample.stringify
                                 Sample.stringify_business (rstate Sample.fresh) 42 1
                                 Sample.fresh)))
  = Some Sample.pizzeria
  /\ exists ex2,
      trace (snd (performBasketUpdate Sample.net Sample.stringify (rstate Sample.stocked)
                    42 0 Sample.stocked))
      = (trace Sample.stocked
         ++ [exchange Sample.net (trace Sample.stocked)
               (build_request (rstate Sample.stocked) (cartTokenRef (refs Sample.stocked))
                  "/cart/items/k42" store "DELETE" (Some PEmpty) ∅ None); ex2])%list.
Proof.
  destruct (origin_follows_the_cart Sample.offline Sample.stringify
              Sample.stringify_business) as (_ & First).
  destruct (origin_follows_the_cart Sample.net Sample.stringify
              Sample.stringify_business) as (Emptied & _).
  split.
  - refine (proj1 (proj2 (First Sample.fresh 42 1 Sample.pizzeria
                            {| endpoint := "/cart/add-item"; payload := PAddItem "42" 1;
                               method := "POST" |} _ _ _ _ _ _ _))).
    + reflexivity.
    + reflexivity.
    + reflexivity.
    + done.
    + reflexivity.
    + reflexivity.
    + intros (r & Hr & _). discriminate Hr.
  - destruct (Emptied (rstate Sample.stocked) 42 0 Sample.stocked
                {| endpoint := "/cart/items/k42"; payload := PEmpty; method := "DELETE" |})
      as (ex2 & Ht & _).
    + reflexivity.
    + done.
    + exists (Sample.respond 200 (VCart (Sample.cart_of []))).
      split; [vm_compute; reflexivity|]. split; [reflexivity|]. by left.
    + by exists ex2.
Defined.

Lemma failed_clear_keeps_the_basket_witness :
  cart (rstate (snd (handleClearAndAdd Sample.offline Sample.stringify
                       Sample.stringify_business (rstate Sample.pending) Sample.pending)))
  = cart (rstate Sample.pending)
  /\ handleClearAndAdd Sample.net Sample.stringify Sample.stringify_business
       (rstate Sample.stocked) Sample.stocked = (Returned tt, Sample.stocked).
Proof.
  split.
  - destruct (proj2 (failed_clear_keeps_the_basket Sample.offline Sample.stringify
                       Sample.stringify_business (rstate Sample.pending) Sample.pending)
                (7, 1)) as (_ & _ & C & _).
    + reflexivity.
    + reflexivity.
    + intros (r & Hr & _). discriminate Hr.
    + exact C.
  - by apply (proj1 (failed_clear_keeps_the_basket Sample.net Sample.stringify
                       Sample.stringify_business (rstate Sample.stocked) Sample.stocked)).
Defined.

(** ** [syncCart] *)

Section SyncCart.

Variable net : list Exchange -> Request -> FetchOutcome.
Variable JSON_stringify : JsVal -> string.
Variable SHIPPING_PACKAGE_ID : Z.



Lemma syncing_console b h e : keeps (syncing b h) (console_error e).
Proof. by intros w. Qed.


End SyncCart.


(** ** When [reorderItems] throws *)

Section Reorder.

Variable net : list Exchange -> Request -> FetchOutcome.
Variable JSON_stringify : JsVal -> string.

(** X18. [reorderItems] throws only when its fallback fails.  Whatever goes
    wrong with the clear request, the batch or the first re-fetch is caught
    and logged; an error reaches the caller only when the [GET /cart] of the
    [catch] block, the last request sent, fails; it is the error of that
    request, which the service layer has logged twice by then. *)
Theorem reorderItems_throws_only_when_resync_fails view items w e :
  fst (reorderItems net JSON_stringify view items w) = Thrown e ->
  exists h tok,
    let g := exchange net h (get_cart_request view tok) in
    trace (snd (reorderItems net JSON_stringify view items w)) = (h ++ [g])%list
    /\ response_result JSON_stringify "GET" (ex_outcome g) = Thrown e
    /\ exists l, console (snd (reorderItems net JSON_stringify view items w))
                 = (l ++ [e; e])%list.
Proof.
  destruct (reorderItems net JSON_stringify view items w) as [res w'] eqn:H.
  cbn [fst snd]. intros ->.
  unfold reorderItems in H. destruct (isSyncing view); [discriminate H|].
  unfold bind at 1, setIsSyncing at 1, modify in H.
  apply try_finally_syncing in H as (w2 & H & ->).
  apply try_catch_cases in H as [(a & _ & Ha) | (e0 & wt & _ & Hc)]; [discriminate Ha|].
  unfold bind at 1, console_error in Hc.
  set (w1 := {| rstate := rstate wt; refs := refs wt; storage := storage wt;
                trace := trace wt; console := (console wt ++ [e0])%list |}) in Hc.
  unfold bind in Hc.
  destruct (getWooCommerceCart net JSON_stringify view w1) as [[c|e'] w3] eqn:E.
  { unfold setCart, modify in Hc. discriminate Hc. }
  injection Hc as <- <-.
  pose proof E as E'. apply getWooCommerceCart_props in E' as (T & R & _).
  simpl in T, R.
  exists (trace wt), (cartTokenRef (refs wt)).
  cbv zeta. unfold exchange, get_cart_request. cbn [ex_outcome]. simpl.
  split_and!; [done | by rewrite <- R |].
  unfold getWooCommerceCart in E.
  apply try_catch_cases in E as [(a & _ & Ha) | (e1 & w4 & E & Hc)]; [discriminate Ha|].
  unfold bind, console_error, throw in Hc. injection Hc as -> <-. simpl.
  unfold request in E. unfold bind at 1, read_refs in E.
  apply try_catch_cases in E as [(a & _ & Ha) | (e2 & w5 & E & Hc)]; [discriminate Ha|].
  unfold bind, console_error, throw in Hc. injection Hc as -> <-. simpl.
  exists (console w5). by rewrite <- app_assoc.
Qed.

End Reorder.

Lemma reorderItems_throws_only_when_resync_fails_witness :
  exists h tok,
    trace (snd (reorderItems Sample.offline Sample.stringify (rstate Sample.fresh)
                  [Sample.order_line 7 2] Sample.fresh))
    = (h ++ [exchange Sample.offline h (get_cart_request (rstate Sample.fresh) tok)])%list.
Proof.
  destruct (reorderItems_throws_only_when_resync_fails Sample.offline Sample.stringify
              (rstate Sample.fresh) [Sample.order_line 7 2] Sample.fresh NetworkError)
    as (h & tok & T & _).
  - vm_compute. reflexivity.
  - by exists h, tok.
Defined.

(** ** [toggleMode] *)

Lemma frame_isDelivery w w' : api_frame w w' -> isDelivery (rstate w') = isDelivery (rstate w).
Proof. intros [H _ _]. by apply (f_equal isDelivery) in H. Qed.

Section ToggleFacts.

Variable net : list Exchange -> Request -> FetchOutcome.
Variable JSON_stringify : JsVal -> string.
Variable SHIPPING_PACKAGE_ID : Z.
Variable DELIVERY_METHOD_ID : string.
Variable COLLECTION_METHOD_ID : string.
Variable package_rates : ShippingPackage -> option (list ShippingRate).

(** The [try] block of [toggleMode] once a rate was found. *)
Lemma select_rate_run view r w1 rb wb :
  (updateShippingMethod net JSON_stringify view SHIPPING_PACKAGE_ID (Some (rate_id r)) >>;
   let* updatedCart := getWooCommerceCart net JSON_stringify view in
   setCart updatedCart) w1 = (rb, wb) ->
  let ex1 := exchange net (trace w1)
               (build_request view (cartTokenRef (refs w1)) "/cart/select-shipping-rate"
                  store "POST" (Some (PShippingRate SHIPPING_PACKAGE_ID (Some (rate_id r))))
                  ∅ None) in
  isDelivery (rstate wb) = isDelivery (rstate w1)
  /\ match response_result JSON_stringify "POST" (ex_outcome ex1) with
     | Returned _ =>
         exists tok,
           let ex2 := exchange net (trace w1 ++ [ex1]) (get_cart_request view tok) in
           trace wb = (trace w1 ++ [ex1; ex2])%list
           /\ match response_result JSON_stringify "GET" (ex_outcome ex2) with
              | Returned c => cart (rstate wb) = c
              | Thrown _ => cart (rstate wb) = cart (rstate w1)
              end
     | Thrown _ => trace wb = (trace w1 ++ [ex1])%list /\ cart (rstate wb) = cart (rstate w1)
     end.
Proof.
  intros H ex1. unfold bind at 1 in H.
  destruct (updateShippingMethod _ _ _ _ _ w1) as [r1 w2] eqn:E1.
  apply updateShippingMethod_props in E1 as (T1 & R1 & F1 & _).
  simpl in T1, R1.
  change (net (trace w1) _) with (ex_outcome ex1) in R1.
  change {| ex_request := _; ex_outcome := _ |} with ex1 in T1.
  rewrite <- R1.
  destruct r1 as [v|e].
  - unfold bind in H.
    destruct (getWooCommerceCart _ _ _ w2) as [r2 w3] eqn:E2.
    apply getWooCommerceCart_props in E2 as (T2 & R2 & F2 & _).
    pose proof (api_frame_trans _ _ _ F1 F2) as F.
    rewrite T1 in T2, R2. simpl in T2, R2.
    assert (isDelivery (rstate wb) = isDelivery (rstate w1)
            /\ trace wb = trace w3
            /\ match r2 with
               | Returned c => cart (rstate wb) = c
               | Thrown _ => cart (rstate wb) = cart (rstate w1)
               end) as (D & T & C).
    { destruct r2 as [c|e]; unfold setCart, modify in H; injection H as <- <-; simpl.
      - by rewrite (frame_isDelivery _ _ F).
      - by rewrite (frame_isDelivery _ _ F), (frame_cart _ _ F). }
    split; [done|]. exists (cartTokenRef (refs w2)). cbv zeta.
    unfold get_cart_request. cbn [exchange ex_outcome]. rewrite <- R2.
    split; [|done]. by rewrite T, T2, <- app_assoc.
  - injection H as <- <-.
    by rewrite (frame_isDelivery _ _ F1), (frame_cart _ _ F1).
Qed.

(** X19. Switching between delivery and collection.  [toggleMode] never
    throws and always sets the mode shown.  Called from a busy render it does
    nothing else, so the mode shown changes while the rate selected on the
    server does not.  Called from an idle render it lowers the busy flag at
    the end and, when the first shipping package of its cart offers a rate of
    the method configured for the mode, sends
    [POST /cart/select-shipping-rate] for that rate and then, if that
    succeeded, one [GET /cart] whose result becomes the local cart; with no
    such rate, or no cart, it sends nothing.  [handleToggle] calls it only
    when the mode changes. *)
Theorem toggleMode_selects_the_rate view mode w :
  let run := toggleMode net JSON_stringify SHIPPING_PACKAGE_ID DELIVERY_METHOD_ID
               COLLECTION_METHOD_ID package_rates view mode w in
  let findMethod := match mode with
                    | delivery => DELIVERY_METHOD_ID
                    | collection => COLLECTION_METHOD_ID
                    end in
  fst run = Returned tt
  /\ isDelivery (rstate (snd run)) = bool_decide (mode = delivery)
  /\ (isSyncing view = true ->
      snd run = with_rstate (set_isDelivery (bool_decide (mode = delivery))) w)
  /\ (isSyncing view = false ->
      isSyncing (rstate (snd run)) = false
      /\ match find_rate package_rates view findMethod with
         | Some (Some r) =>
             let ex1 :=
               exchange net (trace w)
                 (build_request view (cartTokenRef (refs w)) "/cart/select-shipping-rate"
                    store "POST"
                    (Some (PShippingRate SHIPPING_PACKAGE_ID (Some (rate_id r)))) ∅ None) in
             match response_result JSON_stringify "POST" (ex_outcome ex1) with
             | Returned _ =>
                 exists tok,
                   let ex2 := exchange net (trace w ++ [ex1]) (get_cart_request view tok) in
                   trace (snd run) = (trace w ++ [ex1; ex2])%list
                   /\ match response_result JSON_stringify "GET" (ex_outcome ex2) with
                      | Returned c => cart (rstate (snd run)) = c
                      | Thrown _ => cart (rstate (snd run)) = cart (rstate w)
                      end
             | Thrown _ =>
                 trace (snd run) = (trace w ++ [ex1])%list
                 /\ cart (rstate (snd run)) = cart (rstate w)
             end
         | _ => trace (snd run) = trace w /\ cart (rstate (snd run)) = cart (rstate w)
         end)
  /\ (bool_decide (mode = delivery) = isDelivery view ->
      handleToggle net JSON_stringify SHIPPING_PACKAGE_ID DELIVERY_METHOD_ID
        COLLECTION_METHOD_ID package_rates view mode w = (Returned tt, w)).
Proof.
  intros run findMethod. subst run.
  assert (forall b : bool, bool_decide (mode = delivery) = b ->
            handleToggle net JSON_stringify SHIPPING_PACKAGE_ID DELIVERY_METHOD_ID
              COLLECTION_METHOD_ID package_rates view mode w = (Returned tt, w)
            \/ b <> isDelivery view) as Hsame.
  { intros b Hb. unfold handleToggle. rewrite Hb.
    destruct b, (isDelivery view); simpl; auto. }
  destruct (toggleMode _ _ _ _ _ _ _ _ w) as [res w'] eqn:H. cbn [fst snd].
  unfold toggleMode in H. unfold bind at 1, setIsDelivery, modify in H.
  fold findMethod in H.
  set (w0 := with_rstate (set_isDelivery (bool_decide (mode = delivery))) w) in H.
  destruct (isSyncing view) eqn:Hs.
  { injection H as <- <-. split_and!; try done.
    intros Hd. by destruct (Hsame _ Hd). }
  unfold bind at 1, setIsSyncing at 1, modify in H.
  set (w1 := with_rstate (set_isSyncing true) w0) in H.
  unfold bind at 1 in H.
  destruct (try_finally _ _ w1) as [r2 w2] eqn:Hf.
  apply try_finally_syncing in Hf as (w3 & Hm & ->).
  assert (r2 = Returned tt
          /\ isDelivery (rstate w3) = bool_decide (mode = delivery)
          /\ match find_rate package_rates view findMethod with
             | Some (Some r) =>
                 let ex1 :=
                   exchange net (trace w)
                     (build_request view (cartTokenRef (refs w))
                        "/cart/select-shipping-rate" store "POST"
                        (Some (PShippingRate SHIPPING_PACKAGE_ID (Some (rate_id r))))
                        ∅ None) in
                 match response_result JSON_stringify "POST" (ex_outcome ex1) with
                 | Returned _ =>
                     exists tok,
                       let ex2 :=
                         exchange net (trace w ++ [ex1]) (get_cart_request view tok) in
                       trace w3 = (trace w ++ [ex1; ex2])%list
                       /\ match response_result JSON_stringify "GET" (ex_outcome ex2) with
                          | Returned c => cart (rstate w3) = c
                          | Thrown _ => cart (rstate w3) = cart (rstate w)
                          end
                 | Thrown _ =>
                     trace w3 = (trace w ++ [ex1])%list
                     /\ cart (rstate w3) = cart (rstate w)
                 end
             | _ => trace w3 = trace w /\ cart (rstate w3) = cart (rstate w)
             end) as (-> & D & Hrun).
  { destruct (find_rate package_rates view findMethod) as [[r|]|].
    - apply try_catch_cases in Hm as [(a & Hb & ->) | (e & wt & Hb & Hc)].
      + apply select_rate_run in Hb as (D & Hb). destruct a. by split_and!.
      + apply select_rate_run in Hb as (D & Hb).
        unfold console_error in Hc. injection Hc as <- <-. by split_and!.
    - unfold try_catch, ret in Hm. by injection Hm as <- <-.
    - unfold try_catch, throw, console_error in Hm. by injection Hm as <- <-. }
  unfold setIsSyncing, modify in H. injection H as <- <-. simpl.
  split_and!; try done.
  intros Hd. by destruct (Hsame _ Hd).
Qed.

End ToggleFacts.

Lemma toggleMode_selects_the_rate_witness :
  (exists ex1 ex2,
      trace (snd (toggleMode Sample.net Sample.stringify 0 "flat_rate" "local_pickup"
                    Scenario.rates (rstate Scenario.packaged) collection Scenario.packaged))
      = (trace Scenario.packaged ++ [ex1; ex2])%list
      /\ body (ex_request ex1) = Some (PShippingRate 0 (Some "local_pickup:2")))
  /\ snd (toggleMode Sample.net Sample.stringify 0 "flat_rate" "local_pickup"
            Scenario.rates (rstate Sample.busy) collection Sample.busy)
     = with_rstate (set_isDelivery false) Sample.busy
  /\ handleToggle Sample.net Sample.stringify 0 "flat_rate" "local_pickup"
       Scenario.rates (rstate Scenario.packaged) delivery Scenario.packaged
     = (Returned tt, Scenario.packaged).
Proof.
  split_and!.
  - destruct (toggleMode_selects_the_rate Sample.net Sample.stringify 0 "flat_rate"
                "local_pickup" Scenario.rates (rstate Scenario.packaged) collection
                Scenario.packaged) as (_ & _ & _ & Idle & _).
    destruct (Idle eq_refl) as (_ & (tok & T & _)).
    eexists _, _. split; [exact T | reflexivity].
  - by apply (toggleMode_selects_the_rate Sample.net Sample.stringify 0 "flat_rate"
                "local_pickup" Scenario.rates (rstate Sample.busy) collection Sample.busy).
  - by apply (toggleMode_selects_the_rate Sample.net Sample.stringify 0 "flat_rate"
                "local_pickup" Scenario.rates (rstate Scenario.packaged) delivery
                Scenario.packaged).
Defined.
